(** * binance-demo: lot-size normalisation and candle indicators

    A shallow embedding of [services/binance_client.py],
    [services/indicators.py] and the redirecting routes of [app.py].

    - Python [float] is IEEE-754 binary64.  It is modelled by [spec_float]
      at precision 53 and maximal exponent 1024, with the operations of
      [SpecFloat]; every operation below is executable.
    - Python [str] is modelled by [string]; the text handled here (symbols,
      order sides, decimal numerals of the exchange) is ASCII.
    - Exceptions are values of [exn], carried by the error monad [res].
    - The exchange and the process environment are an explicit [World].
    - A pandas float column is a list of optional rationals, [None] being
      NaN (the null of pandas): the indicators are computed in exact
      arithmetic on the exact values of the prices.  Where a property
      depends on the range of float64 it says so, and the float64 algorithm
      of the rolling mean is given beside the exact one ([Pandas64]). *)

From Stdlib Require Import ZArith NArith QArith List String Ascii Bool Lia Lqa.
From Stdlib Require Import Floats.SpecFloat.
From Stdlib Require Import Numbers.DecimalString Numbers.DecimalN Numbers.DecimalFacts.
Import ListNotations.

Local Open Scope string_scope.

(** ** Exceptions and the error monad *)

Inductive exn : Type :=
| BinanceConfigError (msg : string)
| ValueError (msg : string)
| KeyError (key : string)
| OverflowError (msg : string)
| ZeroDivisionError (msg : string)
| DataError (msg : string)
| BinanceAPIException (msg : string)
| BinanceRequestException (msg : string).

Inductive res (A : Type) : Type :=
| OK (a : A)
| Raise (e : exn).
Arguments OK {A} a.
Arguments Raise {A} e.

Definition bind {A B : Type} (m : res A) (k : A -> res B) : res B :=
  match m with
  | OK a => k a
  | Raise e => Raise e
  end.

Notation "'let*' x ':=' m 'in' k" := (bind m (fun x => k))
  (at level 10, x name, m at level 100, k at level 200).

(** ** Python strings *)

Module Py.

Definition is_lower (c : ascii) : bool :=
  let n := nat_of_ascii c in (97 <=? n)%nat && (n <=? 122)%nat.

Definition is_digit (c : ascii) : bool :=
  let n := nat_of_ascii c in (48 <=? n)%nat && (n <=? 57)%nat.

Definition is_ascii (c : ascii) : bool := (nat_of_ascii c <? 128)%nat.

(** [c.isspace()] on ASCII text: white space and the four separators
    U+001C..U+001F; these are the characters [s.strip()] removes. *)
Definition is_space (c : ascii) : bool :=
  let n := nat_of_ascii c in
  ((9 <=? n)%nat && (n <=? 13)%nat) || ((28 <=? n)%nat && (n <=? 32)%nat).

Definition upper_char (c : ascii) : ascii :=
  if is_lower c then ascii_of_nat (nat_of_ascii c - 32) else c.

Definition lower_char (c : ascii) : ascii :=
  let n := nat_of_ascii c in
  if (65 <=? n)%nat && (n <=? 90)%nat then ascii_of_nat (n + 32) else c.

(** [s.upper()] on ASCII text: the letters a..z are raised and every other
    character is kept.  Outside ASCII Python raises other letters as well;
    the properties of the routes below are stated for ASCII text. *)
Fixpoint upper (s : string) : string :=
  match s with
  | EmptyString => EmptyString
  | String c s' => String (upper_char c) (upper s')
  end.

Fixpoint lower (s : string) : string :=
  match s with
  | EmptyString => EmptyString
  | String c s' => String (lower_char c) (lower s')
  end.

Fixpoint all_ascii (s : string) : bool :=
  match s with
  | EmptyString => true
  | String c s' => is_ascii c && all_ascii s'
  end.

(** [c in s] for a one-character needle. *)
Fixpoint contains (c : ascii) (s : string) : bool :=
  match s with
  | EmptyString => false
  | String a s' => Ascii.eqb a c || contains c s'
  end.

(** [s.rstrip(c)]: drop the longest suffix made of [c] only. *)
Fixpoint rstrip (c : ascii) (s : string) : string :=
  match s with
  | EmptyString => EmptyString
  | String a s' =>
      match rstrip c s' with
      | EmptyString => if Ascii.eqb a c then EmptyString else String a EmptyString
      | t => String a t
      end
  end.

Fixpoint lstrip_space (s : string) : string :=
  match s with
  | EmptyString => EmptyString
  | String a s' => if is_space a then lstrip_space s' else s
  end.

Fixpoint rstrip_space (s : string) : string :=
  match s with
  | EmptyString => EmptyString
  | String a s' =>
      match rstrip_space s' with
      | EmptyString => if is_space a then EmptyString else String a EmptyString
      | t => String a t
      end
  end.

(** [s.split(c)]: the fields between the occurrences of [c]; never empty. *)
Fixpoint split (c : ascii) (s : string) : list string :=
  match s with
  | EmptyString => [EmptyString]
  | String a s' =>
      if Ascii.eqb a c then EmptyString :: split c s'
      else match split c s' with
           | [] => [String a EmptyString]
           | f :: fs => String a f :: fs
           end
  end.

Fixpoint repeat (c : ascii) (n : nat) : string :=
  match n with
  | O => EmptyString
  | S n' => String c (repeat c n')
  end.

(** [max(a, b)] of the builtin: [b] replaces [a] only when [b > a]. *)
Definition max {A : Type} (gt : A -> A -> bool) (a b : A) : A :=
  if gt b a then b else a.

End Py.

(** ** Python floats: IEEE-754 binary64 *)

Module F64.

Definition prec : Z := 53.
Definition emax : Z := 1024.

Definition float : Type := spec_float.

Definition pos_zero : float := S754_zero false.
Definition nan : float := S754_nan.
Definition inf (neg : bool) : float := S754_infinity neg.

Definition div : float -> float -> float := SFdiv prec emax.
Definition mul : float -> float -> float := SFmul prec emax.
Definition add : float -> float -> float := SFadd prec emax.
Definition sub : float -> float -> float := SFsub prec emax.
Definition opp : float -> float := SFopp.
Definition eqb : float -> float -> bool := SFeqb.
Definition ltb : float -> float -> bool := SFltb.
Definition leb : float -> float -> bool := SFleb.
Definition gtb (x y : float) : bool := SFltb y x.

Definition valid (x : float) : bool := valid_binary prec emax x.

Definition is_zero (x : float) : bool :=
  match x with S754_zero _ => true | _ => false end.

(** Zero or a finite number: neither an infinity nor NaN. *)
Definition is_finite (x : float) : bool :=
  match x with S754_zero _ | S754_finite _ _ _ => true | _ => false end.

(** The sign bit of a number (never asked of NaN below). *)
Definition signbit (x : float) : bool :=
  match x with
  | S754_zero s | S754_infinity s | S754_finite s _ _ => s
  | S754_nan => false
  end.

(** The nearest double of an integer, ties to even. *)
Definition of_Z (z : Z) : float := binary_normalize prec emax z 0 false.

(** [float(n)] for a Python [int]: the conversion of [n * x]. *)
Definition of_int (z : Z) : res float :=
  match of_Z z with
  | S754_infinity _ => Raise (OverflowError "int too large to convert to float")
  | x => OK x
  end.

(** [x / y]. *)
Definition truediv (x y : float) : res float :=
  if is_zero y then Raise (ZeroDivisionError "float division by zero")
  else OK (div x y).

(** [math.floor(x)]. *)
Definition floor (x : float) : res Z :=
  match x with
  | S754_nan => Raise (ValueError "cannot convert float NaN to integer")
  | S754_infinity _ => Raise (OverflowError "cannot convert float infinity to integer")
  | S754_zero _ => OK 0%Z
  | S754_finite s m e =>
      let sm := if s then Zneg m else Zpos m in
      OK (match e with
          | Zneg p => sm / 2 ^ Zpos p
          | _ => sm * 2 ^ e
          end)%Z
  end.

(** The nearest double of [n * 10^e10], ties to even: what [float(str)]
    returns for a decimal numeral. *)
Definition of_decimal (neg : bool) (n : N) (e10 : Z) : float :=
  match n with
  | N0 => S754_zero neg
  | Npos p =>
      match e10 with
      | Zneg k =>
          let '(q, e, l) :=
            SFdiv_core_binary prec emax (Zpos p) 0 (10 ^ Zpos k) 0 in
          binary_round_aux prec emax neg q e l
      | _ => binary_round prec emax neg (Z.to_pos (Zpos p * 10 ^ e10)) 0
      end
  end.

(** The integer nearest to [a / b] for [0 < b], ties to even. *)
Definition div_half_even (a b : Z) : Z :=
  let q := (a / b)%Z in
  match (2 * (a mod b) ?= b)%Z with
  | Lt => q
  | Gt => (q + 1)%Z
  | Eq => if Z.even q then q else (q + 1)%Z
  end.

(** The integer nearest to [m * 2^e * 10^d], ties to even. *)
Definition scaled (d : nat) (m : positive) (e : Z) : N :=
  Z.to_N (match e with
          | Zneg p => div_half_even (Zpos m * 10 ^ Z.of_nat d) (2 ^ Zpos p)
          | _ => Zpos m * 2 ^ e * 10 ^ Z.of_nat d
          end)%Z.

Definition digits (n : N) : string := NilEmpty.string_of_uint (N.to_uint n).

Definition sign_str (neg : bool) : string := if neg then "-" else "".

(** The digits of [n], padded with zeros on the left to [d + 1] places,
    with the point [d] places from the right. *)
Definition fixed_digits (d : nat) (n : N) : string :=
  let u := N.to_uint n in
  let u := Nat.iter (d + 1 - Decimal.nb_digits u) Decimal.D0 u in
  match d with
  | O => NilEmpty.string_of_uint u
  | _ =>
      NilEmpty.string_of_uint (Decimal.del_tail d u) ++ "."
      ++ NilEmpty.string_of_uint (Decimal.del_head (Decimal.nb_digits u - d) u)
  end.

(** [format(x, '.<d>f')]. *)
Definition format_f (d : nat) (x : float) : string :=
  match x with
  | S754_nan => "nan"
  | S754_infinity s => sign_str s ++ "inf"
  | S754_zero s => sign_str s ++ fixed_digits d 0
  | S754_finite s m e => sign_str s ++ fixed_digits d (scaled d m e)
  end.

(** *** [float(str)] *)

Definition digit_of (c : ascii) : option (Decimal.uint -> Decimal.uint) :=
  match c with
  | "0"%char => Some Decimal.D0 | "1"%char => Some Decimal.D1
  | "2"%char => Some Decimal.D2 | "3"%char => Some Decimal.D3
  | "4"%char => Some Decimal.D4 | "5"%char => Some Decimal.D5
  | "6"%char => Some Decimal.D6 | "7"%char => Some Decimal.D7
  | "8"%char => Some Decimal.D8 | "9"%char => Some Decimal.D9
  | _ => None
  end.

(** The longest prefix of decimal digits, and what follows it. *)
Fixpoint scan_digits (s : string) : Decimal.uint * string :=
  match s with
  | EmptyString => (Decimal.Nil, EmptyString)
  | String c s' =>
      match digit_of c with
      | Some D => let (u, r) := scan_digits s' in (D u, r)
      | None => (Decimal.Nil, s)
      end
  end.

Definition scan_sign (s : string) : bool * string :=
  match s with
  | String "-"%char r => (true, r)
  | String "+"%char r => (false, r)
  | _ => (false, s)
  end.

(** The exponent part [e[+-]digits], consumed only when it has a digit. *)
Definition scan_exponent (s : string) : Z * string :=
  match s with
  | String c r =>
      if Ascii.eqb c "e" || Ascii.eqb c "E" then
        let (eneg, r1) := scan_sign r in
        let (ed, r2) := scan_digits r1 in
        match ed with
        | Decimal.Nil => (0%Z, s)
        | _ => let v := Z.of_N (N.of_uint ed) in
               ((if eneg then - v else v)%Z, r2)
        end
      else (0%Z, s)
  | EmptyString => (0%Z, s)
  end.

(** The decimal-numeral reader under [float]: the value of the longest
    numeral at the head of [s] and the rest, or [None] without a digit. *)
Definition strtod (s : string) : option (float * string) :=
  let (neg, r0) := scan_sign s in
  let (ip, r1) := scan_digits r0 in
  let (fp, r2) :=
    match r1 with
    | String "."%char r => scan_digits r
    | _ => (Decimal.Nil, r1)
    end in
  match ip, fp with
  | Decimal.Nil, Decimal.Nil => None
  | _, _ =>
      let (ex, r3) := scan_exponent r2 in
      Some (of_decimal neg (N.of_uint (Decimal.app ip fp))
              (ex - Z.of_nat (Decimal.nb_digits fp)), r3)
  end.

Fixpoint drop (n : nat) (s : string) : string :=
  match n, s with
  | S n', String _ s' => drop n' s'
  | _, _ => s
  end.

(** [inf], [infinity] and [nan], signed, in any letter case. *)
Definition parse_inf_or_nan (s : string) : option (float * string) :=
  let (neg, r) := scan_sign s in
  let l := Py.lower r in
  if prefix "inf" l then
    Some (S754_infinity neg, if prefix "infinity" l then drop 8 r else drop 3 r)
  else if prefix "nan" l then Some (S754_nan, drop 3 r)
  else None.

(** Underscores may only stand between two digits; they are removed. *)
Fixpoint remove_underscores (prev : ascii) (s : string) : option string :=
  match s with
  | EmptyString => if Ascii.eqb prev "_" then None else Some EmptyString
  | String c s' =>
      if Ascii.eqb c "_" then
        if Py.is_digit prev then remove_underscores c s' else None
      else if Ascii.eqb prev "_" && negb (Py.is_digit c) then None
      else option_map (String c) (remove_underscores c s')
  end.

(** The white space [float] skips at both ends of ASCII text (the
    [isspace] of C): tab, line feed, vertical tab, form feed, carriage
    return and space.  The separators U+001C..U+001F are not among them. *)
Definition is_space (c : ascii) : bool :=
  let n := nat_of_ascii c in
  ((9 <=? n)%nat && (n <=? 13)%nat) || (n =? 32)%nat.

Fixpoint lstrip (s : string) : string :=
  match s with
  | EmptyString => EmptyString
  | String a s' => if is_space a then lstrip s' else s
  end.

Fixpoint rstrip (s : string) : string :=
  match s with
  | EmptyString => EmptyString
  | String a s' =>
      match rstrip s' with
      | EmptyString => if is_space a then EmptyString else String a EmptyString
      | t => String a t
      end
  end.

(** [float(s)] for ASCII text [s]. *)
Definition float_of_string (s : string) : res float :=
  let bad := Raise (ValueError ("could not convert string to float: '" ++ s ++ "'")) in
  let cleaned :=
    if Py.contains "_" s then remove_underscores "000" s else Some s in
  match cleaned with
  | None => bad
  | Some t =>
      let t := rstrip (lstrip t) in
      let parsed :=
        match strtod t with
        | Some r => Some r
        | None => parse_inf_or_nan t
        end in
      match parsed with
      | Some (x, EmptyString) => OK x
      | _ => bad
      end
  end.

(** *** [str(x)]: the shortest numeral that reads back as [x] *)

(** [m * 2^e] as an integer times a power of ten. *)
Definition exact_decimal (m : positive) (e : Z) : N * Z :=
  match e with
  | Zneg p => ((Npos m * 5 ^ Npos p)%N, e)
  | _ => (Z.to_N (Zpos m * 2 ^ e), 0%Z)
  end.

(** The [n]-digit numerals next to [M * 10^E] that read back as [x]: the
    nearer one, and of two at the same distance the one whose last digit is
    even; then [n + 1] digits, and so on. *)
Fixpoint shortest (fuel n : nat) (x : float) (M : N) (E : Z) : N * Z :=
  let len := String.length (digits M) in
  match fuel with
  | O => (M, E)
  | S fuel' =>
      if (len <=? n)%nat then (M, E)
      else
        let sh := N.of_nat (len - n) in
        let lo := (M / 10 ^ sh)%N in
        let hi := (lo + 1)%N in
        let r := (M mod 10 ^ sh)%N in
        let E' := (E + Z.of_N sh)%Z in
        let reads d :=
          match of_decimal false d E', x with
          | S754_finite _ m1 e1, S754_finite _ m2 e2 =>
              Pos.eqb m1 m2 && Z.eqb e1 e2
          | _, _ => false
          end in
        let lo_first :=
          match (2 * r ?= 10 ^ sh)%N with
          | Lt => true
          | Eq => N.even lo
          | Gt => false
          end in
        match reads lo, reads hi with
        | true, true => if lo_first then (lo, E') else (hi, E')
        | true, false => (lo, E')
        | false, true => (hi, E')
        | false, false => shortest fuel' (S n) x M E
        end
  end.

Definition pad2 (s : string) : string :=
  match s with
  | String c EmptyString => String "0" s
  | _ => s
  end.

(** [repr(x)], which is also [str(x)]: exponent notation when the decimal
    point would fall more than 16 places right or 4 places left of the
    first digit. *)
Definition repr (x : float) : string :=
  match x with
  | S754_nan => "nan"
  | S754_infinity s => sign_str s ++ "inf"
  | S754_zero s => sign_str s ++ "0.0"
  | S754_finite s m e =>
      let (M, E) := exact_decimal m e in
      let (D, E') := shortest 17 1 x M E in
      let all := digits D in
      let decpt := (Z.of_nat (String.length all) + E')%Z in
      let ds := Py.rstrip "0" all in
      let len := String.length ds in
      sign_str s ++
      (if (decpt <=? -4)%Z || (16 <? decpt)%Z then
         let ex := (decpt - 1)%Z in
         substring 0 1 ds
         ++ (if (len <=? 1)%nat then "" else "." ++ substring 1 (len - 1) ds)
         ++ "e" ++ (if (ex <? 0)%Z then "-" else "+")
         ++ pad2 (digits (Z.abs_N ex))
       else if (decpt <=? 0)%Z then
         "0." ++ Py.repeat "0" (Z.to_nat (- decpt)) ++ ds
       else if (Z.of_nat len <=? decpt)%Z then
         ds ++ Py.repeat "0" (Z.to_nat decpt - len) ++ ".0"
       else
         substring 0 (Z.to_nat decpt) ds ++ "."
         ++ substring (Z.to_nat decpt) (len - Z.to_nat decpt) ds)
  end.

End F64.

(** ** The exchange and the process environment *)

(** A JSON object with string values, as the exchange returns them. *)
Definition dict : Type := list (string * string).

Fixpoint getitem (d : dict) (k : string) : res string :=
  match d with
  | [] => Raise (KeyError k)
  | (k', v) :: d' => if String.eqb k' k then OK v else getitem d' k
  end.

Record SymbolInfo : Type := { filters : list dict }.

Record Client : Type :=
  { api_key : string; api_secret : string; testnet : bool }.

Record OrderRequest : Type :=
  { order_symbol : string;
    order_side : string;
    order_type : string;
    order_quantity : string }.

(** One row of the frame of candles, after the conversions at the end of
    [get_klines_dataframe] succeeded: times in milliseconds, prices and
    volume as the exact values of the finite doubles the columns hold. *)
Record Kline : Type :=
  { open_time : Z;
    open : Q;
    high : Q;
    low : Q;
    close : Q;
    volume : Q;
    close_time : Z;
    quote_asset_volume : string;
    number_of_trades : Z;
    taker_buy_base : string;
    taker_buy_quote : string;
    ignore : string }.

(** What a call can observe and change: the environment variables, the
    exchange's answers, and the orders submitted so far (latest first). *)
Record World : Type :=
  { getenv : string -> option string;
    connect : Client -> res unit;
    get_symbol_info : string -> res (option SymbolInfo);
    get_klines : string -> string -> nat -> res (list Kline);
    exchange_reply : OrderRequest -> res dict;
    submitted : list OrderRequest }.

Definition submit (w : World) (r : OrderRequest) : World :=
  {| getenv := getenv w;
     connect := connect w;
     get_symbol_info := get_symbol_info w;
     get_klines := get_klines w;
     exchange_reply := exchange_reply w;
     submitted := r :: submitted w |}.

(** ** services/binance_client.py *)

Definition config_message : string :=
  "BINANCE_API_KEY ou BINANCE_API_SECRET não estão configurados no .env.".
Definition invalid_side_message : string :=
  "Side inválido, use 'BUY' ou 'SELL'.".
Definition invalid_quantity_message : string :=
  "Quantidade deve ser maior que zero.".

(** [not s] for an optional string: unset or empty. *)
Definition falsy (v : option string) : bool :=
  match v with
  | None | Some EmptyString => true
  | Some _ => false
  end.

Definition text (v : option string) : string :=
  match v with
  | Some s => s
  | None => EmptyString
  end.

Definition get_client (w : World) : res Client :=
  let key := getenv w "BINANCE_API_KEY" in
  let secret := getenv w "BINANCE_API_SECRET" in
  if falsy key || falsy secret then Raise (BinanceConfigError config_message)
  else
    let client :=
      {| api_key := text key; api_secret := text secret; testnet := true |} in
    let* _ := connect w client in
    OK client.

Fixpoint find_lot_size (symbol : string) (fs : list dict) : res dict :=
  match fs with
  | [] => Raise (ValueError ("Nenhum filtro LOT_SIZE encontrado para " ++ symbol))
  | f :: fs' =>
      let* ty := getitem f "filterType" in
      if String.eqb ty "LOT_SIZE" then OK f else find_lot_size symbol fs'
  end.

Definition _get_lot_size_filter (w : World) (symbol : string) : res dict :=
  let* _ := get_client w in
  let* info := get_symbol_info w (Py.upper symbol) in
  match info with
  | None => Raise (ValueError ("Símbolo inválido: " ++ symbol))
  | Some i => find_lot_size symbol (filters i)
  end.

(** [len(step_str.rstrip("0").split(".")[1])] when ["." in step_str],
    else [0]. *)
Definition step_decimals (step_str : string) : nat :=
  if Py.contains "." step_str then
    String.length (nth 1 (Py.split "." (Py.rstrip "0" step_str)) EmptyString)
  else 0%nat.

(** [steps = math.floor(qty / step_size); qty = steps * step_size]. *)
Definition quantize (qty step_size : F64.float) : res F64.float :=
  let* ratio := F64.truediv qty step_size in
  let* steps := F64.floor ratio in
  let* fsteps := F64.of_int steps in
  OK (F64.mul fsteps step_size).

(** The part of [adjust_quantity_to_lot] after the filter is fetched. *)
Definition adjust_with_filter (lot : dict) (quantity : F64.float) : res F64.float :=
  let* min_str := getitem lot "minQty" in
  let* min_qty := F64.float_of_string min_str in
  let* step_str := getitem lot "stepSize" in
  let* step_size := F64.float_of_string step_str in
  let qty := Py.max F64.gtb quantity min_qty in
  let* qty :=
    if F64.gtb step_size F64.pos_zero then quantize qty step_size else OK qty in
  let decimals := step_decimals step_str in
  F64.float_of_string (F64.format_f decimals qty).

Definition adjust_quantity_to_lot (w : World) (symbol : string)
    (quantity : F64.float) : res F64.float :=
  let* lot := _get_lot_size_filter w symbol in
  adjust_with_filter lot quantity.

Definition valid_side (side : string) : bool :=
  String.eqb side "BUY" || String.eqb side "SELL".

(** The order is sent last; every earlier failure leaves the world as it
    was. *)
Definition place_market_order (w : World) (symbol side : string)
    (quantity : F64.float) : res dict * World :=
  match get_client w with
  | Raise e => (Raise e, w)
  | OK _ =>
      let side := Py.upper side in
      if negb (valid_side side) then
        (Raise (ValueError invalid_side_message), w)
      else if F64.leb quantity F64.pos_zero then
        (Raise (ValueError invalid_quantity_message), w)
      else
        match adjust_quantity_to_lot w symbol quantity with
        | Raise e => (Raise e, w)
        | OK adj_quantity =>
            let request :=
              {| order_symbol := Py.upper symbol;
                 order_side := side;
                 order_type := "MARKET";
                 order_quantity := F64.repr adj_quantity |} in
            (exchange_reply w request, submit w request)
        end
  end.

(** ** pandas: float series, rolling and exponentially weighted means *)

Module Pandas.

(** A float64 series on a range index, in exact arithmetic: a cell holds
    the exact value of a finite double, or [None] for NaN (the null of
    pandas).  The means below are computed without rounding and without
    overflow, so they stand for the float64 results only as far as a
    property does not depend on either: where the nulls are, as long as no
    sum leaves the range of doubles, and bounds and equalities that
    rounding to nearest keeps.  The float64 algorithm of the rolling mean
    itself is [Pandas64.roll_mean] below. *)
Definition Series : Type := list (option Q).

Inductive column : Type :=
| Floats (xs : Series)
| Ints (xs : list Z)
| Times (xs : list Z)
| Objects (xs : list string).

(** Columns in order, each holding one cell per row of the index. *)
Definition DataFrame : Type := list (string * column).

Definition column_length (c : column) : nat :=
  match c with
  | Floats xs => List.length xs
  | Ints xs | Times xs => List.length xs
  | Objects xs => List.length xs
  end.

Fixpoint lookup (df : DataFrame) (name : string) : option column :=
  match df with
  | [] => None
  | (n, c) :: df' => if String.eqb n name then Some c else lookup df' name
  end.

(** [df[name]] read as numbers: a float column as it is, an integer
    column converted.  What pandas does with a column that holds neither
    depends on its version and on the cells; [DataError] marks that case,
    and no property below is stated about it. *)
Definition get_floats (df : DataFrame) (name : string) : res Series :=
  match lookup df name with
  | None => Raise (KeyError name)
  | Some (Floats xs) => OK xs
  | Some (Ints xs) => OK (map (fun z => Some (inject_Z z)) xs)
  | Some _ => Raise (DataError "No numeric types to aggregate")
  end.

(** [df[name] = c]: replace the column in place, or add it last. *)
Fixpoint setitem (df : DataFrame) (name : string) (c : column) : DataFrame :=
  match df with
  | [] => [(name, c)]
  | (n, c') :: df' =>
      if String.eqb n name then (n, c) :: df'
      else (n, c') :: setitem df' name c
  end.

Definition count (xs : Series) : nat :=
  List.length (filter (fun x => match x with Some _ => true | None => false end) xs).

Definition total (xs : Series) : Q :=
  fold_right (fun x acc => match x with Some v => v + acc | None => acc end) 0 xs.

(** The cells [i - window + 1 .. i], cut at the start of the series. *)
Definition window_at (window i : nat) (xs : Series) : Series :=
  let start := (S i - window)%nat in
  firstn (S i - start) (skipn start xs).

(** The mean of a window once it holds [minp] observations, as an exact
    quotient. *)
Definition calc_mean (minp : nat) (win : Series) : option Q :=
  let nobs := count win in
  if (minp <=? nobs)%nat && (0 <? nobs)%nat
  then Some (total win / inject_Z (Z.of_nat nobs))
  else None.

(** [s.rolling(window=window).mean()]: [min_periods] defaults to the
    window size. *)
Definition rolling_mean (window : nat) (xs : Series) : Series :=
  map (fun i => calc_mean window (window_at window i xs)) (seq 0 (List.length xs)).

Definition observed (x : option Q) : nat :=
  match x with Some _ => 1%nat | None => 0%nat end.

(** The loop of [ewm(..., adjust=False).mean()] from the second cell on:
    [weighted] is the running mean, [old_wt] the weight it carries and
    [nobs] the observations seen. *)
Fixpoint ewm_loop (alpha : Q) (minp : nat) (weighted : option Q) (old_wt : Q)
    (nobs : nat) (xs : Series) : Series :=
  match xs with
  | [] => []
  | cur :: xs' =>
      let nobs := (nobs + observed cur)%nat in
      let '(weighted, old_wt) :=
        match weighted with
        | Some w =>
            let old_wt := old_wt * (1 - alpha) in
            match cur with
            | Some c =>
                (Some (if Qeq_bool w c then w
                       else (old_wt * w + alpha * c) / (old_wt + alpha)), 1)
            | None => (Some w, old_wt)
            end
        | None => (cur, old_wt)
        end in
      (if (minp <=? nobs)%nat then weighted else None)
        :: ewm_loop alpha minp weighted old_wt nobs xs'
  end.

(** [s.ewm(alpha=alpha, min_periods=min_periods, adjust=False).mean()]. *)
Definition ewm_mean (alpha : Q) (min_periods : nat) (xs : Series) : Series :=
  match xs with
  | [] => []
  | x0 :: xs' =>
      let minp := Nat.max min_periods 1 in
      let nobs := observed x0 in
      (if (minp <=? nobs)%nat then x0 else None)
        :: ewm_loop alpha minp x0 1 nobs xs'
  end.

(** [span] as a smoothing factor: [alpha = 2 / (span + 1)]. *)
Definition alpha_of_span (span : nat) : Q := 2 / inject_Z (Z.of_nat span + 1).

Fixpoint diff_from (prev : option Q) (xs : Series) : Series :=
  match xs with
  | [] => []
  | x :: xs' =>
      (match x, prev with
       | Some a, Some b => Some (a - b)
       | _, _ => None
       end) :: diff_from x xs'
  end.

(** [s.diff(1)]. *)
Definition diff (xs : Series) : Series := diff_from None xs.

(** [s.where(cond(s), other)], named [where_] here: NaN never satisfies a comparison. *)
Definition where_ (cond : Q -> bool) (other : Q) (xs : Series) : Series :=
  map (fun x => match x with
                | Some v => if cond v then Some v else Some other
                | None => Some other
                end) xs.

Definition neg (xs : Series) : Series := map (option_map Qopp) xs.

Fixpoint sub (xs ys : Series) : Series :=
  match xs, ys with
  | x :: xs', y :: ys' =>
      (match x, y with
       | Some a, Some b => Some (a - b)
       | _, _ => None
       end) :: sub xs' ys'
  | _, _ => []
  end.

End Pandas.

(** ** pandas: the rolling mean in float64 *)

(** The rolling mean as [roll_mean] of pandas/_libs/window/aggregations.pyx
    computes it on doubles: a running sum with Kahan compensation, one
    value added and one removed per row. *)
Module Pandas64.

Record state : Type :=
  { nobs : Z;
    sum_x : F64.float;
    neg_ct : Z;
    compensation_add : F64.float;
    compensation_remove : F64.float;
    num_consecutive_same_value : Z;
    prev_value : F64.float }.

(** [add_mean]: NaN is skipped ([val == val] fails for it). *)
Definition add_mean (val : F64.float) (st : state) : state :=
  if F64.eqb val val then
    let y := F64.sub val (compensation_add st) in
    let t := F64.add (sum_x st) y in
    {| nobs := (nobs st + 1)%Z;
       sum_x := t;
       neg_ct := (if F64.signbit val then neg_ct st + 1 else neg_ct st)%Z;
       compensation_add := F64.sub (F64.sub t (sum_x st)) y;
       compensation_remove := compensation_remove st;
       num_consecutive_same_value :=
         if F64.eqb val (prev_value st)
         then (num_consecutive_same_value st + 1)%Z else 1%Z;
       prev_value := val |}
  else st.

(** [remove_mean]. *)
Definition remove_mean (val : F64.float) (st : state) : state :=
  if F64.eqb val val then
    let y := F64.sub (F64.opp val) (compensation_remove st) in
    let t := F64.add (sum_x st) y in
    {| nobs := (nobs st - 1)%Z;
       sum_x := t;
       neg_ct := (if F64.signbit val then neg_ct st - 1 else neg_ct st)%Z;
       compensation_add := compensation_add st;
       compensation_remove := F64.sub (F64.sub t (sum_x st)) y;
       num_consecutive_same_value := num_consecutive_same_value st;
       prev_value := prev_value st |}
  else st.

(** [calc_mean]: NaN below [minp] observations. *)
Definition calc_mean (minp : Z) (st : state) : F64.float :=
  if (minp <=? nobs st)%Z && (0 <? nobs st)%Z then
    let result := F64.div (sum_x st) (F64.of_Z (nobs st)) in
    if (nobs st <=? num_consecutive_same_value st)%Z then prev_value st
    else if (neg_ct st =? 0)%Z && F64.ltb result F64.pos_zero then F64.pos_zero
    else if (neg_ct st =? nobs st)%Z && F64.gtb result F64.pos_zero
         then F64.pos_zero
    else result
  else F64.nan.

(** The bounds of a fixed window closed on the right: row [i] covers
    [values[start_of window i : end_of i]]. *)
Definition start_of (window i : nat) : nat := (S i - window)%nat.
Definition end_of (i : nat) : nat := S i.

(** [values[a:b]]. *)
Definition slice (values : list F64.float) (a b : nat) : list F64.float :=
  firstn (b - a)%nat (skipn a values).

(** The set-up of a window taken from scratch. *)
Definition setup (values : list F64.float) (s e : nat) : state :=
  fold_left (fun st val => add_mean val st) (slice values s e)
    {| nobs := 0%Z; sum_x := F64.pos_zero; neg_ct := 0%Z;
       compensation_add := F64.pos_zero; compensation_remove := F64.pos_zero;
       num_consecutive_same_value := 0%Z;
       prev_value := nth s values F64.nan |}.

(** One pass of the loop over the rows: the state after row [i], from the
    state after row [i - 1]. *)
Definition advance (values : list F64.float) (window i : nat) (st : state)
    : state :=
  let s := start_of window i in
  let e := end_of i in
  match i with
  | O => setup values s e
  | S i' =>
      if (end_of i' <=? s)%nat then setup values s e
      else
        let st := fold_left (fun st val => remove_mean val st)
                    (slice values (start_of window i') s) st in
        fold_left (fun st val => add_mean val st)
          (slice values (end_of i') e) st
  end.

Fixpoint roll_rows (values : list F64.float) (window : nat) (minp : Z)
    (rows : list nat) (st : state) : list F64.float :=
  match rows with
  | [] => []
  | i :: rows' =>
      let st := advance values window i st in
      calc_mean minp st :: roll_rows values window minp rows' st
  end.

(** [roll_mean(values, start, end, minp)] on the bounds of a fixed
    window. *)
Definition roll_mean (values : list F64.float) (window : nat) (minp : Z)
    : list F64.float :=
  roll_rows values window minp (seq 0 (List.length values))
    {| nobs := 0%Z; sum_x := F64.pos_zero; neg_ct := 0%Z;
       compensation_add := F64.pos_zero; compensation_remove := F64.pos_zero;
       num_consecutive_same_value := 0%Z; prev_value := F64.nan |}.

(** [pd.Series(values).rolling(window=window).mean()] on finite doubles:
    [min_periods] defaults to the window size. *)
Definition rolling_mean (window : nat) (values : list F64.float)
    : list F64.float :=
  roll_mean values window (Z.of_nat window).

End Pandas64.

(** ** services/binance_client.py: candles as a frame *)

Import Pandas.

(** The frame [get_klines_dataframe] returns for these candles: the twelve
    columns in order, times as timestamps, prices and volume as floats.
    The request to the exchange and the conversions that build the frame,
    each of which can fail, are not part of it. *)
Definition klines_frame (raw : list Kline) : DataFrame :=
  let price (f : Kline -> Q) := Floats (map (fun k => Some (f k)) raw) in
  [ ("open_time", Times (map open_time raw));
    ("open", price open);
    ("high", price high);
    ("low", price low);
    ("close", price close);
    ("volume", price volume);
    ("close_time", Times (map close_time raw));
    ("quote_asset_volume", Objects (map quote_asset_volume raw));
    ("number_of_trades", Ints (map number_of_trades raw));
    ("taker_buy_base", Objects (map taker_buy_base raw));
    ("taker_buy_quote", Objects (map taker_buy_quote raw));
    ("ignore", Objects (map ignore raw)) ].

(** ** ta: the indicator classes behind [ta.momentum] and [ta.trend] *)

Module Ta.

(** [_ema(series, periods, fillna)]: without [fillna] the mean is NaN
    until [periods] observations are in. *)
Definition ema (series : Series) (periods : nat) (fillna : bool) : Series :=
  let min_periods := if fillna then 0%nat else periods in
  ewm_mean (alpha_of_span periods) min_periods series.

Record MACD : Type :=
  { macd : Series; macd_signal : Series }.

(** [MACD(close, window_slow, window_fast, window_sign, fillna)]. *)
Definition MACD_run (close : Series) (window_slow window_fast window_sign : nat)
    (fillna : bool) : MACD :=
  let emafast := ema close window_fast fillna in
  let emaslow := ema close window_slow fillna in
  let line := sub emafast emaslow in
  {| macd := line; macd_signal := ema line window_sign fillna |}.

(** One cell of [np.where(emadn == 0, 100, 100 - 100 / (1 + emaup / emadn))]. *)
Definition rsi_cell (up dn : option Q) : option Q :=
  match dn with
  | None => None
  | Some d =>
      if Qeq_bool d 0 then Some 100
      else match up with
           | None => None
           | Some u => Some (100 - 100 / (1 + u / d))
           end
  end.

Fixpoint rsi_cells (ups dns : Series) : Series :=
  match ups, dns with
  | u :: ups', d :: dns' => rsi_cell u d :: rsi_cells ups' dns'
  | _, _ => []
  end.

(** [RSIIndicator(close, window, fillna).rsi()]. *)
Definition RSI_run (close : Series) (window : nat) (fillna : bool) : Series :=
  let d := diff close in
  let up_direction := where_ (fun v => negb (Qle_bool v 0)) 0 d in
  let down_direction := neg (where_ (fun v => negb (Qle_bool 0 v)) 0 d) in
  let min_periods := if fillna then 0%nat else window in
  let alpha := 1 / inject_Z (Z.of_nat window) in
  let emaup := ewm_mean alpha min_periods up_direction in
  let emadn := ewm_mean alpha min_periods down_direction in
  rsi_cells emaup emadn.

End Ta.

(** ** services/indicators.py *)

Definition add_basic_indicators (df : DataFrame) : res DataFrame :=
  let* close := get_floats df "close" in
  let df := setitem df "sma_fast" (Floats (rolling_mean 9 close)) in
  let* close := get_floats df "close" in
  let df := setitem df "sma_slow" (Floats (rolling_mean 21 close)) in
  let* close := get_floats df "close" in
  let df := setitem df "rsi" (Floats (Ta.RSI_run close 14 false)) in
  let* close := get_floats df "close" in
  let macd_ind := Ta.MACD_run close 26 12 9 false in
  let df := setitem df "macd" (Floats (Ta.macd macd_ind)) in
  let df := setitem df "macd_signal" (Floats (Ta.macd_signal macd_ind)) in
  OK df.

(** ** Reading the results *)

(** The cell of a float column at a row, when the column and the row exist. *)
Definition cell (df : DataFrame) (name : string) (i : nat) : option (option Q) :=
  match lookup df name with
  | Some (Floats xs) => nth_error xs i
  | _ => None
  end.

Definition is_null (c : option (option Q)) : Prop := c = Some None.

Definition not_null (c : option (option Q)) : Prop := exists v, c = Some (Some v).

(** Row count of a frame whose columns all have [n] cells. *)
Definition has_rows (df : DataFrame) (n : nat) : Prop :=
  forall name c, lookup df name = Some c -> column_length c = n.

Fixpoint drop_zeros (l : list ascii) : list ascii :=
  match l with
  | c :: l' => if Ascii.eqb c "0" then drop_zeros l' else l
  | [] => []
  end.

(** The longest suffix of zeros removed, reading from the right end. *)
Definition strip_trailing_zeros (s : list ascii) : list ascii :=
  rev (drop_zeros (rev s)).

Fixpoint after_point (s : string) : option string :=
  match s with
  | EmptyString => None
  | String c s' => if Ascii.eqb c "." then Some s' else after_point s'
  end.

(** The count of digits after the decimal point once trailing zeros are
    stripped; none without a point. *)
Definition significant_fraction_digits (s : string) : nat :=
  match after_point s with
  | None => 0%nat
  | Some f => List.length (strip_trailing_zeros (list_ascii_of_string f))
  end.

(** The count of characters after the decimal point; none without a
    point. *)
Definition fraction_digits (s : string) : nat :=
  match after_point s with
  | None => 0%nat
  | Some f => String.length f
  end.

Fixpoint occurrences (c : ascii) (s : string) : nat :=
  match s with
  | EmptyString => 0%nat
  | String a s' => ((if Ascii.eqb a c then 1 else 0) + occurrences c s')%nat
  end.

(** The double nearest to the integer nearest to [x], ties to even both
    times; zeros, infinities and NaN are kept. *)
Definition nearest_integer (x : F64.float) : F64.float :=
  match x with
  | S754_finite s m e => F64.of_decimal s (F64.scaled 0 m e) 0
  | _ => x
  end.

(** Two outcomes a caller cannot tell apart with [==]. *)
Definition same_outcome (r1 r2 : res F64.float) : Prop :=
  r1 = r2 \/
  exists a b, r1 = OK a /\ r2 = OK b /\ F64.eqb a b = true.

(** ** Sample worlds *)

Definition no_reply : dict := [("orderId", "1")].

(** Credentials set, the exchange reachable, and every symbol trading under
    one lot-size rule. *)
Definition lot_world (min_qty step_size : string) : World :=
  {| getenv := fun name =>
       if String.eqb name "BINANCE_API_KEY" then Some "key"
       else if String.eqb name "BINANCE_API_SECRET" then Some "secret"
       else None;
     connect := fun _ => OK tt;
     get_symbol_info := fun _ =>
       OK (Some {| filters :=
         [ [("filterType", "PRICE_FILTER"); ("minPrice", "0.01000000");
            ("maxPrice", "1000000.00000000"); ("tickSize", "0.01000000")];
           [("filterType", "LOT_SIZE"); ("minQty", min_qty);
            ("maxQty", "9000.00000000"); ("stepSize", step_size)] ] |});
     get_klines := fun _ _ _ => OK [];
     exchange_reply := fun _ => OK no_reply;
     submitted := [] |}.

(** The same exchange seen from a process without credentials. *)
Definition unconfigured_world : World :=
  {| getenv := fun _ => None;
     connect := fun _ => OK tt;
     get_symbol_info := get_symbol_info (lot_world "0.00001000" "0.00001000");
     get_klines := fun _ _ _ => OK [];
     exchange_reply := fun _ => OK no_reply;
     submitted := [] |}.

(** The double a decimal literal of the source denotes. *)
Definition literal (s : string) : F64.float :=
  match F64.float_of_string s with
  | OK x => x
  | Raise _ => F64.nan
  end.

Definition flat_candle (price : Q) : Kline :=
  {| open_time := 0; open := price; high := price; low := price;
     close := price; volume := 1; close_time := 0;
     quote_asset_volume := "0"; number_of_trades := 0;
     taker_buy_base := "0"; taker_buy_quote := "0"; ignore := "0" |}.

(** ** Decimal numerals *)

(** The characters of a fixed-point numeral. *)
Definition numeral_char (c : ascii) : bool :=
  Py.is_digit c || Ascii.eqb c "." || Ascii.eqb c "-".

Fixpoint numeral_chars (s : string) : bool :=
  match s with
  | EmptyString => true
  | String c s' => numeral_char c && numeral_chars s'
  end.

Definition no_leading_digit (r : string) : Prop :=
  match r with
  | EmptyString => True
  | String c _ => F64.digit_of c = None
  end.

(** The double [float] reads from [format(x, '.<d>f')]. *)
Definition rendered (d : nat) (x : F64.float) : F64.float :=
  match x with
  | S754_finite s m e => F64.of_decimal s (F64.scaled d m e) (- Z.of_nat d)
  | _ => x
  end.

Definition one_half : F64.float := S754_finite false 4503599627370496 (-53).

(** ** Indicator frames *)

(** A series is null exactly on its first [k] rows. *)
Definition null_before (k : nat) (xs : Series) : Prop :=
  forall i x, nth_error xs i = Some x -> (x = None <-> (i < k)%nat).

Definition indicator_names : list string :=
  ["sma_fast"; "sma_slow"; "rsi"; "macd"; "macd_signal"].

(** The frame returned for a list of candles. *)
Definition indicators_frame (ks : list Kline) : DataFrame :=
  let cl := map Some (map close ks) in
  setitem (setitem (setitem (setitem (setitem (klines_frame ks)
    "sma_fast" (Floats (rolling_mean 9 cl)))
    "sma_slow" (Floats (rolling_mean 21 cl)))
    "rsi" (Floats (Ta.RSI_run cl 14 false)))
    "macd" (Floats (Ta.macd (Ta.MACD_run cl 26 12 9 false))))
    "macd_signal" (Floats (Ta.macd_signal (Ta.MACD_run cl 26 12 9 false))).





(** ** services/binance_client.py: balances *)

(** [d.get(k)]: the value, or nothing when the key is missing. *)
Definition get (d : dict) (k : string) : option string :=
  match getitem d k with
  | OK v => Some v
  | Raise _ => None
  end.

(** [float(d.get(k, 0))]. *)
Definition float_get (d : dict) (k : string) : res F64.float :=
  match get d k with
  | Some s => F64.float_of_string s
  | None => OK F64.pos_zero
  end.

Record Balance : Type :=
  { asset : option string; free : F64.float; locked : F64.float }.

(** The answer of the account endpoint, with its optional balance list. *)
Record AccountInfo : Type := { balances : option (list dict) }.

Definition is_non_zero (b : Balance) : bool :=
  F64.gtb (free b) F64.pos_zero || F64.gtb (locked b) F64.pos_zero.

(** The loop of [get_non_zero_balances]: [non_zero] is the list built so
    far. *)
Fixpoint non_zero_loop (bs : list dict) (non_zero : list Balance)
    : res (list Balance) :=
  match bs with
  | [] => OK non_zero
  | b :: bs' =>
      let* f := float_get b "free" in
      let* l := float_get b "locked" in
      if F64.gtb f F64.pos_zero || F64.gtb l F64.pos_zero then
        non_zero_loop bs'
          (non_zero ++ [{| asset := get b "asset"; free := f; locked := l |}])
      else non_zero_loop bs' non_zero
  end.

(** [get_account] is the account endpoint of the exchange. *)
Definition get_non_zero_balances (w : World)
    (get_account : Client -> res AccountInfo) : res (list Balance) :=
  let* client := get_client w in
  let* account_info := get_account client in
  let bs := match balances account_info with
            | Some l => l
            | None => []
            end in
  non_zero_loop bs [].

(** One balance read on its own, as the loop reads it. *)
Definition read_balance (b : dict) : res Balance :=
  let* f := float_get b "free" in
  let* l := float_get b "locked" in
  OK {| asset := get b "asset"; free := f; locked := l |}.

(** ** app.py: the routes that redirect *)

Inductive Response : Type :=
| RedirectIndex
| RedirectMarket (symbol : string).

(** A flashed message and its category. *)
Definition Flash : Type := (string * string)%type.

(** [s.strip()] on ASCII text. *)
Definition strip (s : string) : string :=
  Py.rstrip_space (Py.lstrip_space s).

(** [market_select], on the [symbol] query argument when there is one. *)
Definition market_select (arg : option string) : Response * list Flash :=
  let symbol := strip (Py.upper (text arg)) in
  match symbol with
  | EmptyString =>
      (RedirectIndex, [("Informe um par, por exemplo BTCUSDT.", "danger")])
  | _ => (RedirectMarket symbol, [])
  end.

(** [str(e)]: a KeyError prints its key quoted, every other exception the
    text it carries. *)
Definition exn_text (e : exn) : string :=
  match e with
  | KeyError k => "'" ++ k ++ "'"
  | BinanceConfigError m | ValueError m | OverflowError m
  | ZeroDivisionError m | DataError m
  | BinanceAPIException m | BinanceRequestException m => m
  end.

Definition sent_message (side : string) (quantity : F64.float)
    (symbol : string) (reply : dict) : string :=
  "Ordem " ++ side ++ " de " ++ F64.repr quantity ++ " " ++ symbol
  ++ " enviada com sucesso (ID "
  ++ match get reply "orderId" with Some i => i | None => "None" end ++ ").".

(** [order], on the [quantity] form field when there is one. *)
Definition order (w : World) (symbol side : string) (form : option string)
    : (Response * list Flash) * World :=
  let symbol := Py.upper symbol in
  let side := Py.upper side in
  let qty_str := match form with Some s => s | None => "0.0" end in
  match F64.float_of_string qty_str with
  | Raise _ =>
      ((RedirectMarket symbol, [("Quantidade inválida.", "danger")]), w)
  | OK quantity =>
      match place_market_order w symbol side quantity with
      | (OK reply, w') =>
          ((RedirectMarket symbol,
            [(sent_message side quantity symbol reply, "success")]), w')
      | (Raise e, w') =>
          ((RedirectMarket symbol,
            [("Erro ao enviar ordem: " ++ exn_text e, "danger")]), w')
      end
  end.

(** Credentials set, but an exchange that lists no symbol. *)
Definition unlisted_world : World :=
  {| getenv := getenv (lot_world "1" "1");
     connect := fun _ => OK tt;
     get_symbol_info := fun _ => OK None;
     get_klines := fun _ _ _ => OK [];
     exchange_reply := fun _ => OK no_reply;
     submitted := [] |}.

Definition sample_client : Client :=
  {| api_key := "key"; api_secret := "secret"; testnet := true |}.

(** The arithmetic mean of a list of prices. *)
Definition mean (l : list Q) : Q :=
  fold_right Qplus 0 l / inject_Z (Z.of_nat (List.length l)).

(** No cell of the series is negative. *)
Definition non_negative (xs : Series) : Prop :=
  forall i v, nth_error xs i = Some (Some v) -> 0 <= v.

(** Fourteen candles, each closing one above the one before. *)
Definition rising_candles : list Kline :=
  map (fun i => flat_candle (inject_Z (Z.of_nat i))) (seq 1 14).

(** Thirty candles closing at 100. *)
Definition flat_candles : list Kline := List.repeat (flat_candle 100) 30.

(** Every cell of the series is null or holds [c]. *)
Definition constant (c : Q) (xs : Series) : Prop :=
  forall i v, nth_error xs i = Some (Some v) -> v = c.

(** Upper-casing leaves every character of the string as it is. *)
Fixpoint all_upper (s : string) : bool :=
  match s with
  | EmptyString => true
  | String c s' => Ascii.eqb (Py.upper_char c) c && all_upper s'
  end.

(** * Properties *)

(** ** The normaliser on sample rules *)

(** C1, at a rule whose minimum lies on the step grid (minQty 0.30000000,
    stepSize 0.10000000, so three steps): a request of 0.1 is raised to the
    minimum 0.3, the quotient 0.3 / 0.1 is the double just below 3, its floor
    is 2, and the normaliser returns 0.2, which is below the minimum the
    result is documented to respect. *)
Theorem adjust_below_minimum :
  let w := lot_world "0.30000000" "0.10000000" in
  F64.gtb (literal "0.10000000") F64.pos_zero = true /\
  F64.leb F64.pos_zero (literal "0.30000000") = true /\
  F64.gtb (literal "0.1") F64.pos_zero = true /\
  F64.floor (F64.div (literal "0.30000000") (literal "0.10000000")) = OK 2%Z /\
  adjust_quantity_to_lot w "BTCUSDT" (literal "0.1") = OK (literal "0.2") /\
  F64.ltb (literal "0.2") (literal "0.30000000") = true.
Proof. vm_compute. repeat split; reflexivity. Qed.

(** A minimum off the step grid (minQty 0.015, stepSize 0.01) is floored
    below itself as well: the request 0.001 is normalised to 0.01. *)
Lemma adjust_below_unaligned_minimum :
  adjust_quantity_to_lot (lot_world "0.015" "0.01") "BTCUSDT" (literal "0.001")
    = OK (literal "0.01") /\
  F64.ltb (literal "0.01") (literal "0.015") = true.
Proof. vm_compute. split; reflexivity. Qed.

(** C3, at the rule minQty = stepSize = 0.00001000: a market buy of 0.00001
    is normalised to the double 1e-05 and [str] renders it in exponent
    notation, so the exchange receives the quantity "1e-05". *)
Theorem order_quantity_in_exponent_notation :
  let w := lot_world "0.00001000" "0.00001000" in
  let out := place_market_order w "BTCUSDT" "BUY" (literal "0.00001") in
  adjust_quantity_to_lot w "BTCUSDT" (literal "0.00001") = OK (literal "0.00001") /\
  fst out = OK no_reply /\
  submitted (snd out) =
    [ {| order_symbol := "BTCUSDT"; order_side := "BUY";
         order_type := "MARKET"; order_quantity := "1e-05" |} ].
Proof. vm_compute. repeat split; reflexivity. Qed.

(** C6, at the rule minQty = stepSize = 0.00001000: 0.000074 is normalised
    to 0.00007, and 0.00007 is normalised to 0.00006, so normalising twice
    differs from normalising once. *)
Theorem adjust_not_idempotent :
  let w := lot_world "0.00001000" "0.00001000" in
  adjust_quantity_to_lot w "BTCUSDT" (literal "0.000074") = OK (literal "0.00007") /\
  adjust_quantity_to_lot w "BTCUSDT" (literal "0.00007") = OK (literal "0.00006") /\
  F64.eqb (literal "0.00006") (literal "0.00007") = false.
Proof. vm_compute. repeat split; reflexivity. Qed.

(** ** Decimal numerals read back *)

Lemma numeral_chars_app (a b : string) :
  numeral_chars (a ++ b) = numeral_chars a && numeral_chars b.
Proof.
  induction a as [|c a IH]; simpl; [reflexivity|].
  now rewrite IH, andb_assoc.
Qed.

Lemma numeral_chars_uint (u : Decimal.uint) :
  numeral_chars (NilEmpty.string_of_uint u) = true.
Proof. induction u; simpl; auto. Qed.

Lemma numeral_chars_sign (neg : bool) : numeral_chars (F64.sign_str neg) = true.
Proof. now destruct neg. Qed.

Lemma numeral_char_plain (c : ascii) :
  numeral_char c = true -> F64.is_space c = false /\ Ascii.eqb c "_" = false.
Proof.
  unfold numeral_char, Py.is_digit, F64.is_space. cbv zeta.
  destruct (Ascii.eqb_spec c ".") as [->|_]; [now split|].
  destruct (Ascii.eqb_spec c "-") as [->|_]; [now split|].
  rewrite !orb_false_r.
  destruct (Ascii.eqb_spec c "_") as [->|_]; [discriminate|].
  generalize (nat_of_ascii c). intros n H.
  apply andb_true_iff in H as [H1 H2].
  apply Nat.leb_le in H1. apply Nat.leb_le in H2.
  split; [|reflexivity].
  apply orb_false_iff; split.
  - apply andb_false_iff. right. apply Nat.leb_gt. lia.
  - apply Nat.eqb_neq. lia.
Qed.

Lemma numeral_no_underscore (s : string) :
  numeral_chars s = true -> Py.contains "_" s = false.
Proof.
  induction s as [|c s IH]; simpl; [reflexivity|].
  intros H. apply andb_true_iff in H as [Hc Hs].
  destruct (numeral_char_plain c Hc) as [_ ->]. now apply IH.
Qed.

Lemma numeral_lstrip (s : string) :
  numeral_chars s = true -> F64.lstrip s = s.
Proof.
  destruct s as [|c s]; simpl; [reflexivity|].
  intros H. apply andb_true_iff in H as [Hc _].
  now destruct (numeral_char_plain c Hc) as [-> _].
Qed.

Lemma numeral_rstrip (s : string) :
  numeral_chars s = true -> F64.rstrip s = s.
Proof.
  induction s as [|c s IH]; simpl; [reflexivity|].
  intros H. apply andb_true_iff in H as [Hc Hs].
  rewrite (IH Hs). destruct (numeral_char_plain c Hc) as [-> _].
  now destruct s.
Qed.

Lemma scan_digits_uint (u : Decimal.uint) (r : string) :
  no_leading_digit r ->
  F64.scan_digits (NilEmpty.string_of_uint u ++ r) = (u, r).
Proof.
  intros Hr. induction u; simpl; try (rewrite IHu; reflexivity).
  destruct r as [|c r]; simpl; [reflexivity|]. simpl in Hr. now rewrite Hr.
Qed.

Lemma scan_sign_uint (neg : bool) (u : Decimal.uint) (r : string) :
  F64.scan_sign (F64.sign_str neg ++ NilEmpty.string_of_uint u ++ r) =
  match neg, u, r with
  | false, Decimal.Nil, _ => F64.scan_sign r
  | _, _, _ => (neg, NilEmpty.string_of_uint u ++ r)
  end.
Proof. destruct neg; [reflexivity|]. destruct u; reflexivity. Qed.

Lemma append_empty (s : string) : s ++ "" = s.
Proof. induction s; simpl; congruence. Qed.

Lemma strtod_integer (neg : bool) (ip : Decimal.uint) :
  ip <> Decimal.Nil ->
  F64.strtod (F64.sign_str neg ++ NilEmpty.string_of_uint ip) =
  Some (F64.of_decimal neg (N.of_uint ip) 0, EmptyString).
Proof.
  intros Hip. unfold F64.strtod.
  rewrite <- (append_empty (NilEmpty.string_of_uint ip)).
  rewrite scan_sign_uint.
  assert (E : match neg, ip, "" with
              | false, Decimal.Nil, _ => F64.scan_sign ""
              | _, _, _ => (neg, NilEmpty.string_of_uint ip ++ "")
              end = (neg, NilEmpty.string_of_uint ip ++ ""))
    by (destruct neg, ip; congruence).
  rewrite E, scan_digits_uint by exact I.
  rewrite app_nil_r. simpl.
  destruct ip; congruence.
Qed.

Lemma strtod_fixed (neg : bool) (ip fp : Decimal.uint) :
  ip <> Decimal.Nil ->
  F64.strtod (F64.sign_str neg ++ NilEmpty.string_of_uint ip ++ "."
              ++ NilEmpty.string_of_uint fp) =
  Some (F64.of_decimal neg (N.of_uint (Decimal.app ip fp))
          (- Z.of_nat (Decimal.nb_digits fp)), EmptyString).
Proof.
  intros Hip. unfold F64.strtod.
  rewrite scan_sign_uint.
  assert (E : match neg, ip, "." ++ NilEmpty.string_of_uint fp with
              | false, Decimal.Nil, _ =>
                  F64.scan_sign ("." ++ NilEmpty.string_of_uint fp)
              | _, _, _ =>
                  (neg, NilEmpty.string_of_uint ip ++ "." ++ NilEmpty.string_of_uint fp)
              end = (neg, NilEmpty.string_of_uint ip ++ "." ++ NilEmpty.string_of_uint fp))
    by (destruct neg, ip; congruence).
  rewrite E, scan_digits_uint by reflexivity.
  change ("." ++ NilEmpty.string_of_uint fp)
    with (String "." (NilEmpty.string_of_uint fp)).
  rewrite <- (append_empty (NilEmpty.string_of_uint fp)).
  rewrite scan_digits_uint by exact I. simpl.
  destruct ip; congruence.
Qed.

Lemma float_of_numeral (t : string) (x : F64.float) :
  numeral_chars t = true ->
  F64.strtod t = Some (x, EmptyString) ->
  F64.float_of_string t = OK x.
Proof.
  intros Hn Hp. unfold F64.float_of_string.
  rewrite (numeral_no_underscore _ Hn), (numeral_lstrip _ Hn), (numeral_rstrip _ Hn), Hp.
  reflexivity.
Qed.

Lemma of_uint_pad (k : nat) (u : Decimal.uint) :
  N.of_uint (Nat.iter k Decimal.D0 u) = N.of_uint u.
Proof. induction k; simpl; [reflexivity|exact IHk]. Qed.

Lemma nb_digits_app (u v : Decimal.uint) :
  Decimal.nb_digits (Decimal.app u v) = (Decimal.nb_digits u + Decimal.nb_digits v)%nat.
Proof. now rewrite !nb_digits_spec, app_spec, length_app. Qed.

(** Reading back what [fixed_digits] wrote. *)
Lemma float_of_fixed_digits (neg : bool) (d : nat) (n : N) :
  F64.float_of_string (F64.sign_str neg ++ F64.fixed_digits d n) =
  OK (F64.of_decimal neg n (- Z.of_nat d)).
Proof.
  unfold F64.fixed_digits.
  set (u := Nat.iter (d + 1 - Decimal.nb_digits (N.to_uint n)) Decimal.D0 (N.to_uint n)).
  assert (Hlen : (d + 1 <= Decimal.nb_digits u)%nat)
    by (unfold u; rewrite nb_digits_iter_D0; lia).
  assert (Hval : N.of_uint u = n)
    by (unfold u; rewrite of_uint_pad; apply DecimalN.Unsigned.of_to).
  destruct d as [|d].
  - apply float_of_numeral.
    + now rewrite numeral_chars_app, numeral_chars_sign, numeral_chars_uint.
    + rewrite strtod_integer, Hval; [reflexivity|].
      intros ->. simpl in Hlen. lia.
  - set (ip := Decimal.del_tail (S d) u).
    set (fp := Decimal.del_head (Decimal.nb_digits u - S d) u).
    assert (Happ : Decimal.app ip fp = u)
      by (apply app_del_tail_head; lia).
    assert (Hfp : Decimal.nb_digits fp = S d)
      by (apply nb_digits_del_head_sub; lia).
    assert (Hip : ip <> Decimal.Nil).
    { intros E. pose proof (nb_digits_app ip fp) as H.
      rewrite Happ, E, Hfp in H. simpl in H. lia. }
    apply float_of_numeral.
    + rewrite !numeral_chars_app, numeral_chars_sign, !numeral_chars_uint.
      reflexivity.
    + rewrite strtod_fixed, Happ, Hval, Hfp by exact Hip. reflexivity.
Qed.

Lemma float_of_format_f (d : nat) (x : F64.float) :
  F64.float_of_string (F64.format_f d x) = OK (rendered d x).
Proof.
  destruct x as [s|s| |s m e]; simpl.
  - apply (float_of_fixed_digits s d 0).
  - now destruct s.
  - reflexivity.
  - apply float_of_fixed_digits.
Qed.

(** ** The normaliser, step by step *)

Lemma adjust_with_filter_eq (lot : dict) (min_str step_str : string)
    (min_qty step_size q : F64.float) :
  getitem lot "minQty" = OK min_str ->
  F64.float_of_string min_str = OK min_qty ->
  getitem lot "stepSize" = OK step_str ->
  F64.float_of_string step_str = OK step_size ->
  adjust_with_filter lot q =
  let* qty := (if F64.gtb step_size F64.pos_zero
               then quantize (Py.max F64.gtb q min_qty) step_size
               else OK (Py.max F64.gtb q min_qty)) in
  OK (rendered (step_decimals step_str) qty).
Proof.
  intros Hm Hfm Hs Hfs. unfold adjust_with_filter.
  rewrite Hm. simpl. rewrite Hfm. simpl. rewrite Hs. simpl. rewrite Hfs. simpl.
  destruct (F64.gtb step_size F64.pos_zero).
  - destruct (quantize _ _); simpl; [apply float_of_format_f|reflexivity].
  - simpl. apply float_of_format_f.
Qed.

(** ** Comparisons of doubles *)

Lemma ltb_irrefl (x : F64.float) : F64.ltb x x = false.
Proof.
  destruct x as [s|s| |s m e]; try reflexivity; try (now destruct s).
  unfold F64.ltb, SFltb, SFcompare.
  destruct s; rewrite Z.compare_refl, Pos.compare_cont_refl; reflexivity.
Qed.

Lemma max_self (x : F64.float) : Py.max F64.gtb x x = x.
Proof. unfold Py.max, F64.gtb. now rewrite ltb_irrefl. Qed.

(** Between a double at most zero and a double at least zero that is not
    greater, both are zeros. *)
Lemma zeros_between (q m : F64.float) :
  F64.leb q F64.pos_zero = true ->
  F64.leb F64.pos_zero m = true ->
  F64.gtb m q = false ->
  exists sq sm, q = S754_zero sq /\ m = S754_zero sm.
Proof.
  unfold F64.leb, F64.gtb, F64.pos_zero, SFleb, SFltb.
  destruct q as [sq|sq| |sq mq eq], m as [sm|sm| |sm mm em]; simpl;
    try discriminate;
    try (destruct sq; discriminate);
    try (destruct sm; discriminate);
    try (destruct sq, sm; discriminate).
  intros _ _ _. now exists sq, sm.
Qed.

Lemma digits2_pos_bound (m : positive) :
  (Zpos m < 2 ^ Zpos (digits2_pos m))%Z.
Proof.
  induction m as [m IH|m IH|]; simpl digits2_pos.
  - rewrite Pos2Z.inj_succ, Z.pow_succ_r by lia. lia.
  - rewrite Pos2Z.inj_succ, Z.pow_succ_r by lia. lia.
  - reflexivity.
Qed.

Lemma div_half_even_small (a b : Z) :
  (0 <= a)%Z -> (2 * a <= b)%Z -> (0 < b)%Z -> F64.div_half_even a b = 0%Z.
Proof.
  intros Ha Hab Hb. unfold F64.div_half_even.
  rewrite Z.mod_small, Z.div_small by lia.
  destruct (Z.compare_spec (2 * a) b); try reflexivity. lia.
Qed.

Lemma valid_mantissa_bound (s : bool) (m : positive) (e : Z) :
  F64.valid (S754_finite s m e) = true -> (Zpos m < 2 ^ 53)%Z.
Proof.
  unfold F64.valid, valid_binary, bounded, canonical_mantissa, fexp, emin.
  unfold F64.prec, F64.emax.
  intros Hv. apply andb_true_iff in Hv as [Hc _]. apply Z.eqb_eq in Hc.
  pose proof (digits2_pos_bound m) as Hm.
  eapply Z.lt_le_trans; [exact Hm|]. apply Z.pow_le_mono_r; lia.
Qed.

(** A positive double of at most one half rounds to the integer zero. *)
Lemma scaled_small (m : positive) (e : Z) :
  F64.valid (S754_finite false m e) = true ->
  F64.leb (S754_finite false m e) one_half = true ->
  F64.scaled 0 m e = 0%N.
Proof.
  intros Hv. apply valid_mantissa_bound in Hv.
  unfold F64.leb, SFleb, SFcompare, one_half.
  unfold F64.scaled. change (10 ^ Z.of_nat 0)%Z with 1%Z.
  destruct (Z.compare_spec e (-53)) as [He|He|He]; try discriminate.
  - subst e. rewrite Pos.compare_cont_spec. unfold Pos.switch_Eq.
    destruct (Pos.compare_spec m 4503599627370496) as [E|E|E];
      try discriminate; intros _.
    + rewrite div_half_even_small; [reflexivity|lia|subst m; reflexivity|lia].
    + apply Pos2Z.pos_lt_pos in E.
      rewrite div_half_even_small; [reflexivity|lia|lia|lia].
  - intros _. destruct e as [|p|p]; try lia.
    assert (2 ^ 54 <= 2 ^ Zpos p)%Z by (apply Z.pow_le_mono_r; lia).
    rewrite div_half_even_small; [reflexivity|lia|lia|lia].
Qed.

Lemma nearest_integer_rendered (x : F64.float) : nearest_integer x = rendered 0 x.
Proof. destruct x; reflexivity. Qed.

Lemma adjust_quantity_to_lot_eq (w : World) (symbol : string) (lot : dict)
    (q : F64.float) :
  _get_lot_size_filter w symbol = OK lot ->
  adjust_quantity_to_lot w symbol q = adjust_with_filter lot q.
Proof. intros H. unfold adjust_quantity_to_lot. now rewrite H. Qed.

(** ** Order entry: the checks in order *)

Lemma place_market_order_invalid_side (w : World) (c : Client)
    (symbol side : string) (q : F64.float) :
  get_client w = OK c ->
  valid_side (Py.upper side) = false ->
  place_market_order w symbol side q = (Raise (ValueError invalid_side_message), w).
Proof. intros Hc Hs. unfold place_market_order. now rewrite Hc, Hs. Qed.

Lemma place_market_order_non_positive (w : World) (c : Client)
    (symbol side : string) (q : F64.float) :
  get_client w = OK c ->
  valid_side (Py.upper side) = true ->
  F64.leb q F64.pos_zero = true ->
  place_market_order w symbol side q =
  (Raise (ValueError invalid_quantity_message), w).
Proof. intros Hc Hs Hq. unfold place_market_order. now rewrite Hc, Hs, Hq. Qed.

Lemma place_market_order_no_client (w : World) (e : exn)
    (symbol side : string) (q : F64.float) :
  get_client w = Raise e ->
  place_market_order w symbol side q = (Raise e, w).
Proof. intros Hc. unfold place_market_order. now rewrite Hc. Qed.

(** Normalising a zero, whatever its sign and the step. *)
Lemma quantize_zero (s1 s2 : bool) (step : F64.float) :
  F64.gtb step F64.pos_zero = true ->
  quantize (S754_zero s1) step = quantize (S754_zero s2) step.
Proof.
  destruct step as [s|s| |s m e]; try discriminate; destruct s; try discriminate;
    intros _; reflexivity.
Qed.

Lemma clamp_outcome (lot : dict) (min_str : string) (min_qty q : F64.float) :
  getitem lot "minQty" = OK min_str ->
  F64.float_of_string min_str = OK min_qty ->
  F64.leb F64.pos_zero min_qty = true ->
  F64.leb q F64.pos_zero = true ->
  same_outcome (adjust_with_filter lot q) (adjust_with_filter lot min_qty).
Proof.
  intros Hm Hfm Hmin Hq.
  destruct (getitem lot "stepSize") as [step_str|e] eqn:Hs.
  2:{ left. unfold adjust_with_filter. rewrite Hm. simpl. rewrite Hfm. simpl.
      rewrite Hs. reflexivity. }
  destruct (F64.float_of_string step_str) as [step|e] eqn:Hfs.
  2:{ left. unfold adjust_with_filter. rewrite Hm. simpl. rewrite Hfm. simpl.
      rewrite Hs. simpl. rewrite Hfs. reflexivity. }
  rewrite !(adjust_with_filter_eq lot min_str step_str min_qty step) by assumption.
  rewrite max_self. unfold Py.max.
  destruct (F64.gtb min_qty q) eqn:Hgt; [left; reflexivity|].
  destruct (zeros_between q min_qty Hq Hmin Hgt) as (sq & sm & -> & ->).
  destruct (F64.gtb step F64.pos_zero) eqn:Hstep.
  - left. cbv zeta. now rewrite (quantize_zero sq sm).
  - right. exists (S754_zero sq), (S754_zero sm). repeat split.
Qed.

(** ** Claims on order entry and on the zero step *)

(** C5, as the code has it: once the client exists (credentials set, the
    exchange reachable), a market order with a valid side and a quantity
    at most zero fails with the ValueError of the quantity check, whatever
    the symbol; the world is unchanged, so no order was sent and no quantity
    computed. *)
Theorem non_positive_quantity_rejected (w : World) (c : Client)
    (symbol side : string) (q : F64.float) :
  get_client w = OK c ->
  valid_side (Py.upper side) = true ->
  F64.leb q F64.pos_zero = true ->
  place_market_order w symbol side q =
    (Raise (ValueError invalid_quantity_message), w) /\
  submitted (snd (place_market_order w symbol side q)) = submitted w.
Proof.
  intros Hc Hs Hq.
  rewrite (place_market_order_non_positive w c) by assumption. now split.
Qed.

Lemma non_positive_quantity_rejected_witness :
  place_market_order (lot_world "0.00001000" "0.00001000") "BTCUSDT" "buy"
    (literal "-1") =
    (Raise (ValueError invalid_quantity_message),
     lot_world "0.00001000" "0.00001000") /\
  submitted (snd (place_market_order (lot_world "0.00001000" "0.00001000")
                    "BTCUSDT" "buy" (literal "-1"))) = [].
Proof.
  apply (non_positive_quantity_rejected (lot_world "0.00001000" "0.00001000")
           {| api_key := "key"; api_secret := "secret"; testnet := true |});
    reflexivity.
Defined.

(** C5 as stated fails without credentials: the same order, valid side and
    quantity -1, raises the configuration error of [get_client], not the
    ValueError of the quantity check. *)
Lemma non_positive_quantity_without_credentials :
  F64.leb (literal "-1") F64.pos_zero = true /\
  valid_side (Py.upper "BUY") = true /\
  place_market_order unconfigured_world "BTCUSDT" "BUY" (literal "-1") =
    (Raise (BinanceConfigError config_message), unconfigured_world).
Proof. repeat split. Qed.

(** C9, as the code has it: under the step string "0.00000000" the
    normaliser skips quantisation and renders at 0 decimals, so it returns
    max(requested, min_quantity) rounded to the nearest integer; a requested
    quantity strictly between 0 and 0.5 is normalised to 0.0 when the
    minimum is itself at most 0.5. *)
Theorem zero_step_rounds_to_integer (w : World) (symbol : string) (lot : dict)
    (min_str : string) (min_qty q : F64.float) :
  _get_lot_size_filter w symbol = OK lot ->
  getitem lot "minQty" = OK min_str ->
  F64.float_of_string min_str = OK min_qty ->
  getitem lot "stepSize" = OK "0.00000000" ->
  F64.float_of_string "0.00000000" = OK F64.pos_zero /\
  step_decimals "0.00000000" = 0%nat /\
  adjust_quantity_to_lot w symbol q =
    OK (nearest_integer (Py.max F64.gtb q min_qty)) /\
  (F64.valid q = true -> F64.valid min_qty = true ->
   F64.gtb q F64.pos_zero = true -> F64.ltb q one_half = true ->
   F64.leb min_qty one_half = true ->
   adjust_quantity_to_lot w symbol q = OK F64.pos_zero).
Proof.
  intros Hlot Hm Hfm Hs.
  assert (Hadj : adjust_quantity_to_lot w symbol q =
                 OK (nearest_integer (Py.max F64.gtb q min_qty))).
  { rewrite (adjust_quantity_to_lot_eq w symbol lot) by assumption.
    rewrite (adjust_with_filter_eq lot min_str "0.00000000" min_qty F64.pos_zero)
      by (assumption || reflexivity).
    rewrite nearest_integer_rendered. reflexivity. }
  repeat split; [exact Hadj|].
  intros Hvq Hvm Hpos Hlt Hmin. rewrite Hadj. f_equal.
  assert (Hsmall : forall x, F64.valid x = true ->
            F64.gtb x F64.pos_zero = true -> F64.leb x one_half = true ->
            nearest_integer x = F64.pos_zero).
  { intros [s|s| |s m e] Hv Hp Hl; try discriminate;
      destruct s; try discriminate.
    simpl. now rewrite scaled_small. }
  unfold Py.max. destruct (F64.gtb min_qty q) eqn:Hgt.
  - apply Hsmall; try assumption.
    destruct q as [s|s| |s m e]; try discriminate; destruct s; try discriminate.
    destruct min_qty as [s'|s'| |s' m' e']; try discriminate;
      destruct s'; try discriminate; reflexivity.
  - apply Hsmall; try assumption.
    unfold F64.ltb, SFltb in Hlt. unfold F64.leb, SFleb.
    destruct (SFcompare q one_half) as [[| |]|]; try discriminate; reflexivity.
Qed.

Lemma zero_step_rounds_to_integer_witness :
  adjust_quantity_to_lot (lot_world "0.10000000" "0.00000000") "BTCUSDT"
    (literal "2.5") = OK (literal "2") /\
  adjust_quantity_to_lot (lot_world "0.10000000" "0.00000000") "BTCUSDT"
    (literal "0.3") = OK F64.pos_zero.
Proof.
  destruct (zero_step_rounds_to_integer (lot_world "0.10000000" "0.00000000")
              "BTCUSDT"
              [("filterType", "LOT_SIZE"); ("minQty", "0.10000000");
               ("maxQty", "9000.00000000"); ("stepSize", "0.00000000")]
              "0.10000000" (literal "0.10000000") (literal "2.5")
              eq_refl eq_refl eq_refl eq_refl) as (_ & _ & H1 & _).
  destruct (zero_step_rounds_to_integer (lot_world "0.10000000" "0.00000000")
              "BTCUSDT"
              [("filterType", "LOT_SIZE"); ("minQty", "0.10000000");
               ("maxQty", "9000.00000000"); ("stepSize", "0.00000000")]
              "0.10000000" (literal "0.10000000") (literal "0.3")
              eq_refl eq_refl eq_refl eq_refl) as (_ & _ & _ & H2).
  split; [exact H1|].
  apply H2; reflexivity.
Defined.

(** C9 as stated fails when the minimum exceeds one half: with minQty
    "1.00000000" and step "0.00000000" the fractional request 0.3 is
    normalised to 1.0, not to 0.0. *)
Lemma zero_step_minimum_above_half :
  F64.gtb (literal "0.3") F64.pos_zero = true /\
  F64.ltb (literal "0.3") one_half = true /\
  adjust_quantity_to_lot (lot_world "1.00000000" "0.00000000") "BTCUSDT"
    (literal "0.3") = OK (literal "1") /\
  F64.eqb (literal "1") F64.pos_zero = false.
Proof. vm_compute. repeat split. Qed.

(** C10, as the code has it.  The normaliser has no check on the sign of
    the request: for a symbol with a lot-size rule whose minimum is at
    least zero, every request at most zero has the outcome of a request of
    exactly the minimum (the same value up to [==], or the same exception),
    so it is clamped up to the minimum and never rejected for its sign.
    Positivity is enforced at order entry only, and there, once the client
    exists, the side is checked first and after upper-casing: an invalid
    side fails with the side's ValueError whatever the quantity, and a
    valid side in any letter case with a quantity at most zero fails with
    the quantity's ValueError; neither sends an order. *)
Theorem non_positive_quantity_clamped_side_first :
  (forall (w : World) (symbol : string) (lot : dict) (min_str : string)
          (min_qty q : F64.float),
      _get_lot_size_filter w symbol = OK lot ->
      getitem lot "minQty" = OK min_str ->
      F64.float_of_string min_str = OK min_qty ->
      F64.leb F64.pos_zero min_qty = true ->
      F64.leb q F64.pos_zero = true ->
      same_outcome (adjust_quantity_to_lot w symbol q)
                   (adjust_quantity_to_lot w symbol min_qty)) /\
  (forall (w : World) (c : Client) (symbol side : string) (q : F64.float),
      get_client w = OK c ->
      Py.all_ascii side = true ->
      valid_side (Py.upper side) = false ->
      place_market_order w symbol side q =
        (Raise (ValueError invalid_side_message), w)) /\
  (forall (w : World) (c : Client) (symbol side : string) (q : F64.float),
      get_client w = OK c ->
      valid_side (Py.upper side) = true ->
      F64.leb q F64.pos_zero = true ->
      place_market_order w symbol side q =
        (Raise (ValueError invalid_quantity_message), w)).
Proof.
  split; [|split].
  - intros w symbol lot min_str min_qty q Hlot Hm Hfm Hmin Hq.
    rewrite !(adjust_quantity_to_lot_eq w symbol lot) by assumption.
    now apply (clamp_outcome lot min_str).
  - intros w c symbol side q Hc _ Hs.
    now apply (place_market_order_invalid_side w c).
  - intros w c symbol side q Hc Hs Hq.
    now apply (place_market_order_non_positive w c).
Qed.

Lemma non_positive_quantity_clamped_side_first_witness :
  same_outcome
    (adjust_quantity_to_lot (lot_world "0.00100000" "0.00100000") "BTCUSDT"
       (literal "-1"))
    (adjust_quantity_to_lot (lot_world "0.00100000" "0.00100000") "BTCUSDT"
       (literal "0.00100000")) /\
  place_market_order (lot_world "0.00100000" "0.00100000") "BTCUSDT" "hold"
    (literal "-1") =
    (Raise (ValueError invalid_side_message),
     lot_world "0.00100000" "0.00100000") /\
  place_market_order (lot_world "0.00100000" "0.00100000") "BTCUSDT" "sell"
    (literal "-1") =
    (Raise (ValueError invalid_quantity_message),
     lot_world "0.00100000" "0.00100000").
Proof.
  destruct non_positive_quantity_clamped_side_first as (A & B & C).
  split; [|split].
  - apply (A (lot_world "0.00100000" "0.00100000") "BTCUSDT"
             [("filterType", "LOT_SIZE"); ("minQty", "0.00100000");
              ("maxQty", "9000.00000000"); ("stepSize", "0.00100000")]
             "0.00100000"); reflexivity.
  - apply (B (lot_world "0.00100000" "0.00100000")
             {| api_key := "key"; api_secret := "secret"; testnet := true |});
      reflexivity.
  - apply (C (lot_world "0.00100000" "0.00100000")
             {| api_key := "key"; api_secret := "secret"; testnet := true |});
      reflexivity.
Defined.

(** C10 as stated fails without credentials: the normaliser does not
    return for the request -1, and the order with the invalid side "HOLD"
    and quantity -1 fails with the configuration error, not with the side's
    ValueError. *)
Lemma non_positive_quantity_without_client :
  adjust_quantity_to_lot unconfigured_world "BTCUSDT" (literal "-1") =
    Raise (BinanceConfigError config_message) /\
  valid_side (Py.upper "HOLD") = false /\
  place_market_order unconfigured_world "BTCUSDT" "HOLD" (literal "-1") =
    (Raise (BinanceConfigError config_message), unconfigured_world).
Proof. repeat split. Qed.

(** ** Points in a numeral [float] accepts *)

Lemma points_cons_ne (c : ascii) (s : string) :
  Ascii.eqb c "." = false -> occurrences "." (String c s) = occurrences "." s.
Proof. intros H. simpl. now rewrite H. Qed.

Lemma digit_not_point (c : ascii) D :
  F64.digit_of c = Some D -> Ascii.eqb c "." = false.
Proof. destruct (Ascii.eqb_spec c ".") as [->|]; [discriminate|reflexivity]. Qed.

Lemma space_not_point (c : ascii) :
  F64.is_space c = true -> Ascii.eqb c "." = false.
Proof. destruct (Ascii.eqb_spec c ".") as [->|]; [discriminate|reflexivity]. Qed.

Lemma points_scan_digits (s : string) :
  occurrences "." (snd (F64.scan_digits s)) = occurrences "." s.
Proof.
  induction s as [|c s IH]; [reflexivity|].
  simpl F64.scan_digits. destruct (F64.digit_of c) as [D|] eqn:E; [|reflexivity].
  rewrite (points_cons_ne c) by (eapply digit_not_point; eassumption).
  now destruct (F64.scan_digits s).
Qed.

Lemma points_scan_sign (s : string) :
  occurrences "." (snd (F64.scan_sign s)) = occurrences "." s.
Proof.
  destruct s as [|c s]; [reflexivity|]. unfold F64.scan_sign.
  destruct (Ascii.eqb_spec c "-") as [->|]; [reflexivity|].
  destruct (Ascii.eqb_spec c "+") as [->|]; [reflexivity|].
  destruct c as [[] [] [] [] [] [] [] []]; reflexivity.
Qed.

Lemma points_scan_exponent (s : string) :
  occurrences "." (snd (F64.scan_exponent s)) = occurrences "." s.
Proof.
  destruct s as [|c s]; [reflexivity|]. unfold F64.scan_exponent.
  destruct (Ascii.eqb c "e" || Ascii.eqb c "E") eqn:E; [|reflexivity].
  pose proof (points_scan_sign s) as H1.
  destruct (F64.scan_sign s) as [eneg r1]. simpl in H1.
  pose proof (points_scan_digits r1) as H2.
  destruct (F64.scan_digits r1) as [ed r2]. simpl in H2.
  assert (Hc : Ascii.eqb c "." = false).
  { destruct (Ascii.eqb_spec c ".") as [->|]; [discriminate|reflexivity]. }
  destruct ed; try reflexivity; simpl snd; rewrite points_cons_ne by assumption;
    congruence.
Qed.

Lemma points_strtod (s : string) (x : F64.float) :
  F64.strtod s = Some (x, EmptyString) -> (occurrences "." s <= 1)%nat.
Proof.
  unfold F64.strtod.
  pose proof (points_scan_sign s) as H0.
  destruct (F64.scan_sign s) as [neg r0]. simpl in H0.
  pose proof (points_scan_digits r0) as H1.
  destruct (F64.scan_digits r0) as [ip r1]. simpl in H1.
  assert (H2 : forall fp r2,
             match r1 with
             | String "."%char r => F64.scan_digits r
             | _ => (Decimal.Nil, r1)
             end = (fp, r2) -> (occurrences "." r1 <= 1 + occurrences "." r2)%nat).
  { intros fp r2. destruct r1 as [|c r]; [intros H; injection H as _ <-; simpl; lia|].
    destruct (Ascii.eqb_spec c ".") as [->|Hc].
    - intros H. pose proof (points_scan_digits r) as H3. rewrite H in H3.
      simpl in *. lia.
    - assert (E : match c with
                  | "."%char => F64.scan_digits r
                  | _ => (Decimal.Nil, String c r)
                  end = (Decimal.Nil, String c r)).
      { destruct c as [[] [] [] [] [] [] [] []]; try reflexivity. congruence. }
      rewrite E. intros H. injection H as _ <-. lia. }
  destruct (match r1 with
            | String "."%char r => F64.scan_digits r
            | _ => (Decimal.Nil, r1)
            end) as [fp r2].
  specialize (H2 fp r2 eq_refl).
  pose proof (points_scan_exponent r2) as H3.
  destruct (F64.scan_exponent r2) as [ex r3]. simpl in H3.
  destruct ip, fp; try discriminate; intros H; injection H as _ ->;
    simpl in H3; lia.
Qed.

Lemma lower_char_point (c : ascii) :
  Ascii.eqb c "." = true -> Py.lower_char c = "."%char.
Proof. intros H. apply Ascii.eqb_eq in H. now subst. Qed.

Lemma prefix_cons (c : ascii) (p s : string) :
  prefix (String c p) s = true ->
  exists a t, s = String a t /\ a = c /\ prefix p t = true.
Proof.
  destruct s as [|a t]; simpl; [discriminate|].
  destruct (Ascii.ascii_dec c a) as [->|]; [|discriminate].
  intros H. now exists a, t.
Qed.

Lemma lower_letter_not_point (a c : ascii) :
  Py.lower_char a = c -> Ascii.eqb c "." = false -> Ascii.eqb a "." = false.
Proof.
  intros H Hc. destruct (Ascii.eqb_spec a ".") as [->|]; [|reflexivity].
  simpl in H. subst. discriminate.
Qed.

(** A string whose lower-case form starts with the letters [p], none of
    them a point, has no point in its first [length p] characters. *)
Lemma points_drop_prefix (p r : string) :
  occurrences "." p = 0%nat ->
  prefix p (Py.lower r) = true ->
  occurrences "." r = occurrences "." (F64.drop (String.length p) r).
Proof.
  revert r. induction p as [|c p IH]; intros r Hp H; [now destruct r|].
  simpl in Hp. destruct (Ascii.eqb c ".") eqn:Hc; [discriminate|].
  destruct r as [|a r]; [discriminate|].
  simpl in H. destruct (Ascii.ascii_dec c (Py.lower_char a)) as [E|]; [|discriminate].
  simpl F64.drop. rewrite points_cons_ne.
  - apply IH; [exact Hp|exact H].
  - eapply lower_letter_not_point; [symmetry; exact E|exact Hc].
Qed.

Lemma points_inf_or_nan (s : string) (x : F64.float) :
  F64.parse_inf_or_nan s = Some (x, EmptyString) -> occurrences "." s = 0%nat.
Proof.
  unfold F64.parse_inf_or_nan.
  pose proof (points_scan_sign s) as H0.
  destruct (F64.scan_sign s) as [neg r]. simpl in H0. rewrite <- H0.
  pose proof (points_drop_prefix "infinity" r eq_refl) as P8.
  pose proof (points_drop_prefix "inf" r eq_refl) as P3.
  pose proof (points_drop_prefix "nan" r eq_refl) as Pn.
  change (String.length "infinity") with 8%nat in P8.
  change (String.length "inf") with 3%nat in P3.
  change (String.length "nan") with 3%nat in Pn.
  set (d8 := F64.drop 8 r) in *. set (d3 := F64.drop 3 r) in *.
  destruct (prefix "inf" (Py.lower r)) eqn:Hinf.
  - destruct (prefix "infinity" (Py.lower r)) eqn:Hinfinity; intros H;
      injection H as _ H.
    + rewrite P8, H by reflexivity. reflexivity.
    + rewrite P3, H by reflexivity. reflexivity.
  - destruct (prefix "nan" (Py.lower r)) eqn:Hnan; [|discriminate].
    intros H. injection H as _ H.
    rewrite Pn, H by reflexivity. reflexivity.
Qed.

Lemma points_lstrip (s : string) : occurrences "." (F64.lstrip s) = occurrences "." s.
Proof.
  induction s as [|c s IH]; [reflexivity|]. simpl F64.lstrip.
  destruct (F64.is_space c) eqn:E; [|reflexivity].
  rewrite points_cons_ne by (now apply space_not_point). exact IH.
Qed.

Lemma points_rstrip (s : string) : occurrences "." (F64.rstrip s) = occurrences "." s.
Proof.
  induction s as [|c s IH]; [reflexivity|]. simpl F64.rstrip.
  destruct (F64.rstrip s) as [|b t] eqn:E.
  - destruct (F64.is_space c) eqn:Hc.
    + rewrite points_cons_ne by (now apply space_not_point). exact IH.
    + simpl in *. now rewrite <- IH.
  - simpl in *. now rewrite IH.
Qed.

Lemma points_remove_underscores (s : string) :
  forall prev t, F64.remove_underscores prev s = Some t -> occurrences "." t = occurrences "." s.
Proof.
  induction s as [|c s IH]; intros prev t; simpl.
  - destruct (Ascii.eqb prev "_"); [discriminate|]. intros H. now injection H as <-.
  - destruct (Ascii.eqb_spec c "_") as [->|Hc].
    + destruct (Py.is_digit prev); [|discriminate]. intros H.
      now rewrite (IH _ _ H).
    + destruct (Ascii.eqb prev "_" && negb (Py.is_digit c)); [discriminate|].
      destruct (F64.remove_underscores c s) as [t'|] eqn:E; [|discriminate].
      simpl. intros H. injection H as <-. simpl. now rewrite (IH _ _ E).
Qed.

(** A string [float] accepts holds at most one point. *)
Lemma float_of_string_points (s : string) (x : F64.float) :
  F64.float_of_string s = OK x -> (occurrences "." s <= 1)%nat.
Proof.
  unfold F64.float_of_string.
  destruct (if Py.contains "_" s then F64.remove_underscores "000" s else Some s)
    as [t|] eqn:Ht; [|discriminate].
  assert (Hts : occurrences "." t = occurrences "." s).
  { destruct (Py.contains "_" s).
    - eapply points_remove_underscores; eassumption.
    - now injection Ht as <-. }
  rewrite <- Hts, <- (points_lstrip t), <- (points_rstrip (F64.lstrip t)).
  destruct (F64.strtod _) as [[y r]|] eqn:Hp.
  - destruct r; [|discriminate]. intros _. eapply points_strtod; eassumption.
  - destruct (F64.parse_inf_or_nan _) as [[y r]|] eqn:Hi; [|discriminate].
    destruct r; [|discriminate]. intros _.
    rewrite (points_inf_or_nan _ _ Hi). lia.
Qed.

(** ** The precision read off the step string *)

Lemma rstrip_cons_ne (c a : ascii) (s : string) :
  Ascii.eqb a c = false -> Py.rstrip c (String a s) = String a (Py.rstrip c s).
Proof. intros H. simpl. rewrite H. now destruct (Py.rstrip c s). Qed.

Lemma rstrip_cons_nonempty (c a : ascii) (s : string) :
  Py.rstrip c s <> EmptyString ->
  Py.rstrip c (String a s) = String a (Py.rstrip c s).
Proof. intros H. simpl. destruct (Py.rstrip c s); congruence. Qed.

Lemma contains_rstrip (c d : ascii) (s : string) :
  Ascii.eqb d c = false -> Py.contains d (Py.rstrip c s) = Py.contains d s.
Proof.
  intros Hdc. induction s as [|a s IH]; [reflexivity|].
  simpl. destruct (Py.rstrip c s) eqn:E.
  - simpl in IH. rewrite <- IH. destruct (Ascii.eqb_spec a c) as [->|Hac].
    + simpl. rewrite Ascii.eqb_sym in Hdc. now rewrite Hdc.
    + simpl. now rewrite orb_false_r.
  - simpl. simpl in IH. now rewrite IH.
Qed.

Lemma contains_nonempty (d : ascii) (s : string) :
  Py.contains d s = true -> s <> EmptyString.
Proof. destruct s; [discriminate|congruence]. Qed.

Lemma split_no_separator (c : ascii) (s : string) :
  Py.contains c s = false -> Py.split c s = [s].
Proof.
  induction s as [|a s IH]; [reflexivity|].
  simpl. intros H. apply orb_false_iff in H as [Ha Hs].
  now rewrite Ha, (IH Hs).
Qed.

Lemma length_list_ascii (s : string) :
  List.length (list_ascii_of_string s) = String.length s.
Proof. induction s; simpl; congruence. Qed.

Lemma drop_zeros_app (l : list ascii) (a : ascii) :
  drop_zeros (l ++ [a])%list =
  match drop_zeros l with
  | [] => if Ascii.eqb a "0" then [] else [a]
  | t => (t ++ [a])%list
  end.
Proof.
  induction l as [|b l IH]; [reflexivity|].
  simpl. destruct (Ascii.eqb b "0"); [exact IH|reflexivity].
Qed.

(** [rstrip("0")] and stripping trailing zeros from the right end leave the
    same characters. *)
Lemma rstrip_zeros (s : string) :
  list_ascii_of_string (Py.rstrip "0" s) =
  strip_trailing_zeros (list_ascii_of_string s).
Proof.
  unfold strip_trailing_zeros.
  induction s as [|a s IH]; [reflexivity|].
  simpl list_ascii_of_string at 2. simpl rev. rewrite drop_zeros_app.
  simpl Py.rstrip.
  destruct (Py.rstrip "0" s) as [|b t] eqn:E.
  - simpl in IH. destruct (drop_zeros (rev (list_ascii_of_string s))) as [|x l] eqn:D.
    + now destruct (Ascii.eqb a "0").
    + exfalso. simpl in IH. destruct (rev l); discriminate.
  - destruct (drop_zeros (rev (list_ascii_of_string s))) as [|x l] eqn:D.
    + discriminate.
    + rewrite rev_app_distr, <- IH. reflexivity.
Qed.

Lemma step_decimals_cons (a : ascii) (s : string) :
  Ascii.eqb a "." = false ->
  step_decimals (String a s) = step_decimals s.
Proof.
  intros Ha. unfold step_decimals. simpl Py.contains. rewrite Ha. simpl orb.
  destruct (Py.contains "." s) eqn:Hc; [|reflexivity].
  assert (Hc' : Py.contains "." (Py.rstrip "0" s) = true)
    by (now rewrite contains_rstrip).
  rewrite rstrip_cons_nonempty by (eapply contains_nonempty; eassumption).
  simpl Py.split. rewrite Ha.
  destruct (Py.split "." (Py.rstrip "0" s)) as [|f fs] eqn:E; [|reflexivity].
  destruct (Py.rstrip "0" s) as [|b t]; [discriminate|].
  simpl in E. destruct (Ascii.eqb b "."); [discriminate|].
  destruct (Py.split "." t); discriminate.
Qed.

(** What the code counts is the number of digits after the point once
    trailing zeros are stripped, for every string with at most one point. *)
Lemma step_decimals_significant (s : string) :
  (occurrences "." s <= 1)%nat ->
  step_decimals s = significant_fraction_digits s.
Proof.
  induction s as [|a s IH]; [reflexivity|].
  simpl occurrences. destruct (Ascii.eqb_spec a ".") as [->|Ha]; intros H.
  - assert (Hs : Py.contains "." s = false).
    { clear IH. induction s as [|b s IHs]; [reflexivity|].
      simpl in *. destruct (Ascii.eqb b "."); [lia|]. apply IHs. lia. }
    unfold step_decimals, significant_fraction_digits.
    rewrite rstrip_cons_ne by reflexivity.
    change (Py.contains "." (String "." s)) with true.
    change (after_point (String "." s)) with (Some s).
    change (Py.split "." (String "." (Py.rstrip "0" s)))
      with (EmptyString :: Py.split "." (Py.rstrip "0" s)).
    rewrite split_no_separator by (now rewrite contains_rstrip).
    change (nth 1 [EmptyString; Py.rstrip "0" s] EmptyString)
      with (Py.rstrip "0" s).
    now rewrite <- rstrip_zeros, length_list_ascii.
  - apply Ascii.eqb_neq in Ha.
    rewrite step_decimals_cons by assumption.
    unfold significant_fraction_digits. simpl. rewrite Ha.
    apply IH. simpl in H. lia.
Qed.

(** ** The shape of a rendered quantity *)

Lemma after_point_app (a b : string) :
  Py.contains "." a = false -> after_point (a ++ String "." b) = Some b.
Proof.
  induction a as [|c a IH]; simpl; [reflexivity|].
  intros H. apply orb_false_iff in H as [Hc Ha]. now rewrite Hc, IH.
Qed.

Lemma after_point_none (a : string) :
  Py.contains "." a = false -> after_point a = None.
Proof.
  induction a as [|c a IH]; simpl; [reflexivity|].
  intros H. apply orb_false_iff in H as [Hc Ha]. now rewrite Hc, IH.
Qed.

Lemma contains_app (c : ascii) (s t : string) :
  Py.contains c (s ++ t) = Py.contains c s || Py.contains c t.
Proof.
  induction s as [|a s IH]; simpl; [reflexivity|]. now rewrite IH, orb_assoc.
Qed.

Lemma no_point_uint (u : Decimal.uint) :
  Py.contains "." (NilEmpty.string_of_uint u) = false.
Proof. induction u; simpl; auto. Qed.

Lemma no_point_sign (neg : bool) : Py.contains "." (F64.sign_str neg) = false.
Proof. now destruct neg. Qed.

Lemma length_string_of_uint (u : Decimal.uint) :
  String.length (NilEmpty.string_of_uint u) = Decimal.nb_digits u.
Proof. induction u; simpl; congruence. Qed.

Lemma append_assoc (a b c : string) : (a ++ b) ++ c = a ++ (b ++ c).
Proof. induction a; simpl; congruence. Qed.

(** [fixed_digits d n] has exactly [d] digits after its point. *)
Lemma fraction_digits_fixed (neg : bool) (d : nat) (n : N) :
  fraction_digits (F64.sign_str neg ++ F64.fixed_digits d n) = d.
Proof.
  unfold fraction_digits, F64.fixed_digits.
  set (u := Nat.iter (d + 1 - Decimal.nb_digits (N.to_uint n)) Decimal.D0 (N.to_uint n)).
  assert (Hlen : (d + 1 <= Decimal.nb_digits u)%nat)
    by (unfold u; rewrite nb_digits_iter_D0; lia).
  destruct d as [|d].
  - rewrite after_point_none; [reflexivity|].
    now rewrite contains_app, no_point_sign, no_point_uint.
  - rewrite <- append_assoc.
    change ("." ++ ?x) with (String "." x).
    rewrite after_point_app
      by (now rewrite contains_app, no_point_sign, no_point_uint).
    rewrite length_string_of_uint. apply nb_digits_del_head_sub. lia.
Qed.

(** [format(x, '.<d>f')] of a finite number has exactly [d] digits after
    its point (and no point when [d] is 0). *)
Lemma fraction_digits_format_f (d : nat) (x : F64.float) :
  F64.is_finite x = true -> fraction_digits (F64.format_f d x) = d.
Proof.
  destruct x as [s|s| |s m e]; try discriminate; intros _; simpl;
    apply fraction_digits_fixed.
Qed.

Lemma adjust_with_filter_inv (lot : dict) (q r : F64.float) :
  adjust_with_filter lot q = OK r ->
  exists min_str step_str min_qty step_size qty,
    getitem lot "minQty" = OK min_str /\
    F64.float_of_string min_str = OK min_qty /\
    getitem lot "stepSize" = OK step_str /\
    F64.float_of_string step_str = OK step_size /\
    (if F64.gtb step_size F64.pos_zero
     then quantize (Py.max F64.gtb q min_qty) step_size
     else OK (Py.max F64.gtb q min_qty)) = OK qty /\
    F64.float_of_string (F64.format_f (step_decimals step_str) qty) = OK r.
Proof.
  unfold adjust_with_filter.
  destruct (getitem lot "minQty") as [min_str|]; [simpl|discriminate].
  destruct (F64.float_of_string min_str) as [min_qty|] eqn:Hm; [simpl|discriminate].
  destruct (getitem lot "stepSize") as [step_str|]; [simpl|discriminate].
  destruct (F64.float_of_string step_str) as [step_size|] eqn:Hs; [simpl|discriminate].
  destruct (if F64.gtb step_size F64.pos_zero
            then quantize (Py.max F64.gtb q min_qty) step_size
            else OK (Py.max F64.gtb q min_qty)) as [qty|] eqn:Hq; [simpl|discriminate].
  intros H. exists min_str, step_str, min_qty, step_size, qty. now repeat split.
Qed.

(** C4: whenever the normaliser returns, its result is read from the
    quantity (the larger of request and minimum, floored to the step when
    the step is positive) rendered with as many decimals as the step string
    has digits after its point once trailing zeros are stripped: the step
    string holds at most one point, the rendering of a finite quantity has
    exactly that many digits after its point, and the result is the double
    nearest to the rendered numeral.  "0.00100000" gives 3 decimals and "1"
    gives 0.  Under the rule minimum 0.0001, step 0.00001 (also spelled with
    eight decimals, as the exchange does), the request 0.0015678 is floored
    to 156 steps, rendered as "0.00156" and returned as exactly 0.00156. *)
Theorem result_rendered_at_step_precision :
  (forall (lot : dict) (q r : F64.float),
      adjust_with_filter lot q = OK r ->
      exists min_str step_str min_qty step_size qty,
        getitem lot "minQty" = OK min_str /\
        F64.float_of_string min_str = OK min_qty /\
        getitem lot "stepSize" = OK step_str /\
        F64.float_of_string step_str = OK step_size /\
        (if F64.gtb step_size F64.pos_zero
         then quantize (Py.max F64.gtb q min_qty) step_size
         else OK (Py.max F64.gtb q min_qty)) = OK qty /\
        (occurrences "." step_str <= 1)%nat /\
        step_decimals step_str = significant_fraction_digits step_str /\
        F64.float_of_string
          (F64.format_f (significant_fraction_digits step_str) qty) = OK r /\
        r = rendered (significant_fraction_digits step_str) qty) /\
  (forall (d : nat) (x : F64.float),
      F64.is_finite x = true -> fraction_digits (F64.format_f d x) = d) /\
  (forall step_str : string,
      (occurrences "." step_str <= 1)%nat ->
      step_decimals step_str = significant_fraction_digits step_str) /\
  step_decimals "0.00100000" = 3%nat /\
  step_decimals "1" = 0%nat /\
  quantize (literal "0.0015678") (literal "0.00001")
    = OK (F64.mul (F64.of_Z 156) (literal "0.00001")) /\
  F64.format_f (step_decimals "0.00001")
    (F64.mul (F64.of_Z 156) (literal "0.00001")) = "0.00156" /\
  F64.format_f (step_decimals "0.00001000")
    (F64.mul (F64.of_Z 156) (literal "0.00001000")) = "0.00156" /\
  adjust_quantity_to_lot (lot_world "0.0001" "0.00001") "BTCUSDT"
    (literal "0.0015678") = OK (literal "0.00156") /\
  adjust_quantity_to_lot (lot_world "0.00010000" "0.00001000") "BTCUSDT"
    (literal "0.0015678") = OK (literal "0.00156") /\
  F64.repr (literal "0.00156") = "0.00156".
Proof.
  split.
  { intros lot q r H.
    destruct (adjust_with_filter_inv lot q r H)
      as (min_str & step_str & min_qty & step_size & qty & Hm & Hfm & Hs & Hfs & Hq & Hr).
    pose proof (float_of_string_points _ _ Hfs) as Hp.
    pose proof (step_decimals_significant _ Hp) as Hd.
    rewrite Hd in Hr.
    exists min_str, step_str, min_qty, step_size, qty.
    repeat (split; [assumption|]).
    rewrite float_of_format_f in Hr. now injection Hr as <-. }
  split; [exact fraction_digits_format_f|].
  split; [exact step_decimals_significant|].
  vm_compute. repeat split.
Qed.

Lemma result_rendered_at_step_precision_witness :
  (exists min_str step_str min_qty step_size qty,
      getitem [("minQty", "0.0001"); ("stepSize", "0.00001")] "minQty" = OK min_str /\
      F64.float_of_string min_str = OK min_qty /\
      getitem [("minQty", "0.0001"); ("stepSize", "0.00001")] "stepSize"
        = OK step_str /\
      F64.float_of_string step_str = OK step_size /\
      (if F64.gtb step_size F64.pos_zero
       then quantize (Py.max F64.gtb (literal "0.0015678") min_qty) step_size
       else OK (Py.max F64.gtb (literal "0.0015678") min_qty)) = OK qty /\
      (occurrences "." step_str <= 1)%nat /\
      step_decimals step_str = significant_fraction_digits step_str /\
      F64.float_of_string
        (F64.format_f (significant_fraction_digits step_str) qty)
        = OK (literal "0.00156") /\
      literal "0.00156" = rendered (significant_fraction_digits step_str) qty) /\
  fraction_digits (F64.format_f 5 (literal "0.0015678")) = 5%nat /\
  step_decimals "0.00001000" = significant_fraction_digits "0.00001000".
Proof.
  destruct result_rendered_at_step_precision as (A & B & C & _).
  split; [|split].
  - apply (A [("minQty", "0.0001"); ("stepSize", "0.00001")] (literal "0.0015678")).
    vm_compute. reflexivity.
  - apply B. reflexivity.
  - apply C. vm_compute. lia.
Defined.

(** ** Frames: columns read and written *)

Lemma lookup_setitem (df : DataFrame) (name other : string) (c : column) :
  lookup (setitem df name c) other =
  if String.eqb name other then Some c else lookup df other.
Proof.
  induction df as [|[n c'] df IH]; simpl.
  - reflexivity.
  - destruct (String.eqb_spec n name) as [->|Hn]; simpl.
    + now destruct (String.eqb name other).
    + rewrite IH. destruct (String.eqb_spec n other) as [->|Ho];
        [|reflexivity].
      destruct (String.eqb_spec name other) as [->|_]; congruence.
Qed.

Lemma get_floats_setitem (df : DataFrame) (name other : string) (c : column) :
  String.eqb name other = false ->
  get_floats (setitem df name c) other = get_floats df other.
Proof. intros H. unfold get_floats. now rewrite lookup_setitem, H. Qed.

Lemma has_rows_setitem (df : DataFrame) (n : nat) (name : string) (c : column) :
  has_rows df n -> column_length c = n -> has_rows (setitem df name c) n.
Proof.
  intros Hdf Hc other c'. rewrite lookup_setitem.
  destruct (String.eqb name other); [congruence|apply Hdf].
Qed.

(** ** Series: lengths *)

Lemma rolling_mean_length (w : nat) (xs : Series) :
  List.length (rolling_mean w xs) = List.length xs.
Proof. unfold rolling_mean. now rewrite length_map, length_seq. Qed.

Lemma ewm_loop_length (alpha : Q) (minp : nat) (xs : Series) :
  forall weighted old_wt nobs,
    List.length (ewm_loop alpha minp weighted old_wt nobs xs) = List.length xs.
Proof.
  induction xs as [|cur xs IH]; intros weighted old_wt nobs; simpl; [reflexivity|].
  destruct weighted as [w|]; destruct cur as [c|]; simpl; now rewrite IH.
Qed.

Lemma ewm_mean_length (alpha : Q) (p : nat) (xs : Series) :
  List.length (ewm_mean alpha p xs) = List.length xs.
Proof. destruct xs; simpl; [reflexivity|]. now rewrite ewm_loop_length. Qed.

Lemma sub_length (xs ys : Series) :
  List.length xs = List.length ys -> List.length (sub xs ys) = List.length xs.
Proof.
  revert ys. induction xs as [|x xs IH]; intros [|y ys] H; simpl in *;
    try reflexivity; try discriminate.
  now rewrite IH by congruence.
Qed.

Lemma diff_from_length (xs : Series) :
  forall prev, List.length (diff_from prev xs) = List.length xs.
Proof. induction xs as [|x xs IH]; intros prev; simpl; [reflexivity|]. now rewrite IH. Qed.

Lemma rsi_cells_length (ups dns : Series) :
  List.length ups = List.length dns ->
  List.length (Ta.rsi_cells ups dns) = List.length ups.
Proof.
  revert dns. induction ups as [|u ups IH]; intros [|d dns] H; simpl in *;
    try reflexivity; try discriminate.
  now rewrite IH by congruence.
Qed.

Lemma RSI_run_length (close : Series) (window : nat) (fillna : bool) :
  List.length (Ta.RSI_run close window fillna) = List.length close.
Proof.
  unfold Ta.RSI_run, diff, neg, where_.
  rewrite rsi_cells_length; rewrite !ewm_mean_length, ?length_map, ?diff_from_length;
    reflexivity.
Qed.

Lemma ema_length (xs : Series) (p : nat) (fillna : bool) :
  List.length (Ta.ema xs p fillna) = List.length xs.
Proof. apply ewm_mean_length. Qed.

Lemma macd_length (close : Series) (slow fast sign : nat) (fillna : bool) :
  List.length (Ta.macd (Ta.MACD_run close slow fast sign fillna)) = List.length close.
Proof. simpl. rewrite sub_length; now rewrite !ema_length. Qed.

Lemma macd_signal_length (close : Series) (slow fast sign : nat) (fillna : bool) :
  List.length (Ta.macd_signal (Ta.MACD_run close slow fast sign fillna)) =
  List.length close.
Proof. simpl. rewrite ema_length, sub_length; now rewrite !ema_length. Qed.

(** ** Series: where the nulls are *)

Lemma count_cons (x : option Q) (xs : Series) :
  count (x :: xs) = (observed x + count xs)%nat.
Proof. unfold count. now destruct x. Qed.

Lemma count_map_Some (l : list Q) : count (map Some l) = List.length l.
Proof. induction l; [reflexivity|]. rewrite map_cons, count_cons, IHl. reflexivity. Qed.

Lemma null_before_map_Some (l : list Q) : null_before 0 (map Some l).
Proof.
  intros i x H. rewrite nth_error_map in H.
  destruct (nth_error l i); simpl in H; [|discriminate].
  injection H as <-. split; [discriminate|lia].
Qed.

Lemma null_before_tail (k : nat) (x : option Q) (xs : Series) :
  null_before k (x :: xs) -> null_before (k - 1) xs.
Proof.
  intros H i y Hy. specialize (H (S i) y Hy). rewrite H. lia.
Qed.

(** Observations among the first [m] rows of a series null on its first
    [k] rows only. *)
Lemma count_null_before (xs : Series) :
  forall k m, null_before k xs -> (m <= List.length xs)%nat ->
              count (firstn m xs) = (m - k)%nat.
Proof.
  induction xs as [|x xs IH]; intros k m H Hm.
  - simpl in Hm. assert (m = 0%nat) by lia. subst. reflexivity.
  - destruct m as [|m]; [reflexivity|].
    rewrite firstn_cons, count_cons.
    rewrite (IH (k - 1)%nat m) by (eauto using null_before_tail; simpl in Hm; lia).
    pose proof (H 0%nat x eq_refl) as H0.
    destruct x as [v|]; unfold observed.
    + assert (k = 0)%nat.
      { destruct k; [reflexivity|].
        assert (Some v = None) by (apply H0; lia). discriminate. }
      lia.
    + assert (0 < k)%nat by (apply H0; reflexivity). lia.
Qed.

(** The weighted mean is null until [minp] observations are in, and never
    after. *)
Lemma ewm_loop_null (alpha : Q) (minp : nat) (xs : Series) :
  forall weighted old_wt nobs i x,
    (1 <= minp)%nat ->
    (weighted = None -> nobs = 0%nat) ->
    nth_error (ewm_loop alpha minp weighted old_wt nobs xs) i = Some x ->
    (x = None <-> (nobs + count (firstn (S i) xs) < minp)%nat).
Proof.
  induction xs as [|cur xs IH]; intros weighted old_wt nobs i x Hp Hw Hx.
  - destruct i; discriminate.
  - rewrite firstn_cons, count_cons.
    simpl in Hx.
    destruct weighted as [w|]; destruct cur as [c|]; simpl in Hx;
      (destruct i as [|i]; simpl in Hx;
       [ injection Hx as <-; rewrite ?firstn_O; unfold count; simpl;
         try (rewrite (Hw eq_refl));
         match goal with
         | |- context [(minp <=? ?n)%nat] =>
             destruct (Nat.leb_spec minp n); split; intros; try discriminate;
             try reflexivity; try lia
         end
       | apply IH in Hx; [rewrite Hx; simpl; lia | assumption
                          | try discriminate; intros; try (rewrite Hw by assumption); lia ] ]).
Qed.

Lemma ewm_mean_null (alpha : Q) (p : nat) (xs : Series) (i : nat) (x : option Q) :
  nth_error (ewm_mean alpha p xs) i = Some x ->
  (x = None <-> (count (firstn (S i) xs) < Nat.max p 1)%nat).
Proof.
  destruct xs as [|x0 xs]; [destruct i; discriminate|].
  rewrite firstn_cons, count_cons. simpl ewm_mean.
  destruct i as [|i]; simpl nth_error.
  - intros H. injection H as <-. rewrite firstn_O. unfold count. simpl.
    destruct (Nat.leb_spec (Nat.max p 1) (observed x0)); destruct x0; simpl in *;
      split; intros; try discriminate; try reflexivity; lia.
  - intros H. apply ewm_loop_null in H; [exact H|lia|].
    destruct x0; [discriminate|reflexivity].
Qed.

Lemma ewm_mean_null_before (alpha : Q) (p k : nat) (xs : Series) :
  null_before k xs ->
  null_before (k + Nat.max p 1 - 1) (ewm_mean alpha p xs).
Proof.
  intros H i x Hx.
  assert (Hi : (i < List.length xs)%nat).
  { rewrite <- (ewm_mean_length alpha p). apply nth_error_Some. congruence. }
  rewrite (ewm_mean_null _ _ _ _ _ Hx), (count_null_before xs k) by (assumption || lia).
  lia.
Qed.

Lemma observed_not_null (v : Q) (P : Prop) : (Some v = None <-> P) -> ~ P.
Proof. intros H HP. apply H in HP. discriminate. Qed.

Lemma null_holds (P : Prop) : (@None Q = None <-> P) -> P.
Proof. intros H. now apply H. Qed.

Lemma sub_null_before (k1 k2 : nat) (xs ys : Series) :
  null_before k1 xs -> null_before k2 ys ->
  List.length xs = List.length ys ->
  null_before (Nat.max k1 k2) (sub xs ys).
Proof.
  revert k1 k2 ys. induction xs as [|x xs IH]; intros k1 k2 [|y ys] H1 H2 Hl;
    simpl in Hl; try discriminate.
  - intros [|i] z Hz; discriminate.
  - pose proof (H1 0%nat x eq_refl) as Hx. pose proof (H2 0%nat y eq_refl) as Hy.
    intros [|i] z Hz; simpl in Hz.
    + injection Hz as <-.
      destruct x as [a|], y as [b|];
        try apply observed_not_null in Hx; try apply observed_not_null in Hy;
        try apply null_holds in Hx; try apply null_holds in Hy;
        split; intros; try discriminate; try reflexivity; lia.
    + assert (Hz' := IH (k1 - 1)%nat (k2 - 1)%nat ys
                       (null_before_tail _ _ _ H1) (null_before_tail _ _ _ H2)
                       ltac:(congruence) i z Hz).
      rewrite Hz'.
      destruct x as [a|], y as [b|];
        try apply observed_not_null in Hx; try apply observed_not_null in Hy;
        try apply null_holds in Hx; try apply null_holds in Hy; lia.
Qed.

Lemma window_at_length (w i : nat) (xs : Series) :
  (i < List.length xs)%nat ->
  List.length (window_at w i xs) = Nat.min (S i) w.
Proof.
  intros Hi. unfold window_at. rewrite length_firstn, length_skipn. lia.
Qed.

Lemma window_at_map_Some (w i : nat) (l : list Q) :
  window_at w i (map Some l) =
  map Some (firstn (S i - (S i - w)) (skipn (S i - w) l)).
Proof. unfold window_at. now rewrite skipn_map, firstn_map. Qed.

(** On a series without nulls the rolling mean is null exactly on the
    first [w - 1] rows. *)
Lemma rolling_mean_null_before (w : nat) (l : list Q) :
  (1 <= w)%nat -> null_before (w - 1) (rolling_mean w (map Some l)).
Proof.
  intros Hw i x Hx. unfold rolling_mean in Hx.
  rewrite nth_error_map in Hx.
  destruct (nth_error (seq 0 (List.length (map Some l))) i) as [j|] eqn:Hj;
    [|discriminate].
  assert (Hi : (i < List.length (seq 0 (List.length (map Some l))))%nat)
    by (apply nth_error_Some; congruence).
  rewrite length_seq in Hi.
  rewrite nth_error_seq in Hj.
  destruct (Nat.ltb_spec i (List.length (map Some l))); [|lia].
  injection Hj as <-. cbn [option_map Nat.add] in Hx. injection Hx as <-.
  unfold calc_mean.
  pose proof (window_at_length w i (map Some l) Hi) as Hlen.
  rewrite window_at_map_Some in Hlen. rewrite window_at_map_Some, count_map_Some.
  rewrite length_map in Hlen. rewrite Hlen.
  destruct (Nat.leb_spec w (Nat.min (S i) w));
    destruct (Nat.ltb_spec 0 (Nat.min (S i) w)); simpl;
    split; intros; try discriminate; try reflexivity; lia.
Qed.

(** ** The frame of candles and the indicator columns *)

Lemma klines_frame_rows (ks : list Kline) :
  has_rows (klines_frame ks) (List.length ks).
Proof.
  intros name c. unfold klines_frame, lookup.
  repeat (destruct (String.eqb _ name); cbv iota;
          [intros H; injection H as <-; simpl; apply length_map|]).
  discriminate.
Qed.

Lemma klines_frame_close (ks : list Kline) :
  get_floats (klines_frame ks) "close" = OK (map Some (map close ks)).
Proof. unfold get_floats. simpl. now rewrite map_map. Qed.


(** The frame the pipeline returns, column by column. *)
Lemma add_basic_indicators_eq (df : DataFrame) (cl : Series) :
  get_floats df "close" = OK cl ->
  add_basic_indicators df =
  OK (setitem (setitem (setitem (setitem (setitem df
        "sma_fast" (Floats (rolling_mean 9 cl)))
        "sma_slow" (Floats (rolling_mean 21 cl)))
        "rsi" (Floats (Ta.RSI_run cl 14 false)))
        "macd" (Floats (Ta.macd (Ta.MACD_run cl 26 12 9 false))))
        "macd_signal" (Floats (Ta.macd_signal (Ta.MACD_run cl 26 12 9 false)))).
Proof.
  intros H. unfold add_basic_indicators.
  rewrite H. simpl bind.
  rewrite get_floats_setitem, H by reflexivity. simpl bind.
  rewrite !get_floats_setitem, H by reflexivity. simpl bind.
  rewrite !get_floats_setitem, H by reflexivity. reflexivity.
Qed.

Lemma indicators_lookup (df : DataFrame) (c1 c2 c3 c4 c5 : column) (name : string) :
  lookup (setitem (setitem (setitem (setitem (setitem df
            "sma_fast" c1) "sma_slow" c2) "rsi" c3) "macd" c4) "macd_signal" c5)
         name =
  if String.eqb "macd_signal" name then Some c5
  else if String.eqb "macd" name then Some c4
  else if String.eqb "rsi" name then Some c3
  else if String.eqb "sma_slow" name then Some c2
  else if String.eqb "sma_fast" name then Some c1
  else lookup df name.
Proof. now rewrite !lookup_setitem. Qed.


Lemma cell_null_before (k i : nat) (xs : Series) :
  null_before k xs -> (i < List.length xs)%nat ->
  (i < k -> nth_error xs i = Some None)%nat /\
  (k <= i -> exists v, nth_error xs i = Some (Some v))%nat.
Proof.
  intros H Hi. destruct (nth_error xs i) as [x|] eqn:E.
  - specialize (H i x E). destruct x as [v|].
    + split; intros Hk; [|now exists v].
      assert (Some v = None) by (apply H; lia). discriminate.
    + split; intros Hk; [reflexivity|].
      assert (i < k)%nat by (now apply H). lia.
  - apply nth_error_None in E. lia.
Qed.

Lemma add_basic_indicators_klines (ks : list Kline) :
  add_basic_indicators (klines_frame ks) = OK (indicators_frame ks).
Proof. apply add_basic_indicators_eq, klines_frame_close. Qed.

Lemma indicators_frame_rows (ks : list Kline) :
  has_rows (indicators_frame ks) (List.length ks).
Proof.
  unfold indicators_frame.
  repeat apply has_rows_setitem; try apply klines_frame_rows; simpl.
  - now rewrite rolling_mean_length, !length_map.
  - now rewrite rolling_mean_length, !length_map.
  - now rewrite RSI_run_length, !length_map.
  - rewrite sub_length; now rewrite !ema_length, ?length_map.
  - rewrite ema_length, sub_length; now rewrite !ema_length, ?length_map.
Qed.

Lemma indicators_frame_cell (ks : list Kline) (name : string) (i : nat) :
  cell (indicators_frame ks) name i =
  let cl := map Some (map close ks) in
  if String.eqb "macd_signal" name
  then nth_error (Ta.macd_signal (Ta.MACD_run cl 26 12 9 false)) i
  else if String.eqb "macd" name
  then nth_error (Ta.macd (Ta.MACD_run cl 26 12 9 false)) i
  else if String.eqb "rsi" name then nth_error (Ta.RSI_run cl 14 false) i
  else if String.eqb "sma_slow" name then nth_error (rolling_mean 21 cl) i
  else if String.eqb "sma_fast" name then nth_error (rolling_mean 9 cl) i
  else cell (klines_frame ks) name i.
Proof.
  unfold cell, indicators_frame. rewrite indicators_lookup. cbv zeta.
  repeat match goal with
         | |- context [String.eqb ?a name] => destruct (String.eqb a name)
         end; reflexivity.
Qed.

(** ** The rolling mean in float64: the rows before the window is full *)
















(** C8: on no candles the pipeline returns, without an exception, a frame
    whose columns are all empty, the five indicator columns among them. *)
Theorem indicators_of_no_candles :
  exists df,
    add_basic_indicators (klines_frame []) = OK df /\
    has_rows df 0 /\
    forall name, In name indicator_names -> lookup df name = Some (Floats []).
Proof.
  exists (indicators_frame []).
  split; [apply add_basic_indicators_klines|].
  split; [apply (indicators_frame_rows [])|].
  intros name H. simpl in H.
  repeat (destruct H as [<-|H]; [reflexivity|]). contradiction.
Qed.

Lemma macd_null_before (l : list Q) :
  null_before 25 (Ta.macd (Ta.MACD_run (map Some l) 26 12 9 false)).
Proof.
  apply (sub_null_before 11 25).
  - apply (ewm_mean_null_before _ 12 0), null_before_map_Some.
  - apply (ewm_mean_null_before _ 26 0), null_before_map_Some.
  - now rewrite !ema_length.
Qed.

Lemma macd_signal_null_before (l : list Q) :
  null_before 33 (Ta.macd_signal (Ta.MACD_run (map Some l) 26 12 9 false)).
Proof. apply (ewm_mean_null_before _ 9 25), macd_null_before. Qed.

(** C2, as the libraries compute it: the exponential means are taken with
    a minimum number of observations equal to their span, so macd (spans 12
    and 26) is null on rows 0..24 and not null from row 25 on, and
    macd_signal (span 9 over macd) is null on rows 0..32 and not null from
    row 33 on. *)
Theorem macd_null_during_warm_up (ks : list Kline) :
  exists df,
    add_basic_indicators (klines_frame ks) = OK df /\
    (forall i, (i < List.length ks)%nat -> (i < 25)%nat ->
               is_null (cell df "macd" i)) /\
    (forall i, (25 <= i < List.length ks)%nat -> not_null (cell df "macd" i)) /\
    (forall i, (i < List.length ks)%nat -> (i < 33)%nat ->
               is_null (cell df "macd_signal" i)) /\
    (forall i, (33 <= i < List.length ks)%nat ->
               not_null (cell df "macd_signal" i)).
Proof.
  exists (indicators_frame ks).
  split; [apply add_basic_indicators_klines|].
  pose proof (macd_null_before (map close ks)) as Hm.
  pose proof (macd_signal_null_before (map close ks)) as Hs.
  pose proof (macd_length (map Some (map close ks)) 26 12 9 false) as Lm.
  pose proof (macd_signal_length (map Some (map close ks)) 26 12 9 false) as Ls.
  rewrite !length_map in Lm, Ls.
  split; [|split; [|split]].
  - intros i Hi Hk. rewrite indicators_frame_cell.
    change (nth_error (Ta.macd (Ta.MACD_run (map Some (map close ks)) 26 12 9 false)) i
            = Some None).
    apply (cell_null_before 25 i _ Hm); [rewrite Lm|]; assumption.
  - intros i [Hk Hi]. rewrite indicators_frame_cell.
    change (exists v,
               nth_error (Ta.macd (Ta.MACD_run (map Some (map close ks)) 26 12 9 false)) i
               = Some (Some v)).
    apply (cell_null_before 25 i _ Hm); [rewrite Lm|]; assumption.
  - intros i Hi Hk. rewrite indicators_frame_cell.
    change (nth_error
              (Ta.macd_signal (Ta.MACD_run (map Some (map close ks)) 26 12 9 false)) i
            = Some None).
    apply (cell_null_before 33 i _ Hs); [rewrite Ls|]; assumption.
  - intros i [Hk Hi]. rewrite indicators_frame_cell.
    change (exists v,
               nth_error
                 (Ta.macd_signal (Ta.MACD_run (map Some (map close ks)) 26 12 9 false)) i
               = Some (Some v)).
    apply (cell_null_before 33 i _ Hs); [rewrite Ls|]; assumption.
Qed.

(** C2 as stated fails on the shortest sequence: for one candle closing at
    100 both macd and macd_signal are null at index 0. *)
Lemma macd_null_on_first_candle :
  exists df,
    add_basic_indicators (klines_frame [flat_candle 100]) = OK df /\
    cell df "macd" 0 = Some None /\
    cell df "macd_signal" 0 = Some None.
Proof. eexists. repeat split. Qed.

(** * Further properties *)

(** ** The client and the lot-size filter *)

Lemma falsy_text (v : option string) :
  falsy v = false -> v = Some (text v) /\ text v <> EmptyString.
Proof. destruct v as [[|c s]|]; try discriminate. now split. Qed.

(** X1: The client [get_client] returns is a testnet client built from the
    two environment variables, both set and not empty, and it has connected;
    when a variable is unset or empty the configuration error is raised. *)
Theorem get_client_testnet_credentials (w : World) :
  (forall c, get_client w = OK c ->
     testnet c = true /\
     getenv w "BINANCE_API_KEY" = Some (api_key c) /\ api_key c <> EmptyString /\
     getenv w "BINANCE_API_SECRET" = Some (api_secret c) /\
     api_secret c <> EmptyString /\
     connect w c = OK tt) /\
  (falsy (getenv w "BINANCE_API_KEY") = true \/
   falsy (getenv w "BINANCE_API_SECRET") = true ->
   get_client w = Raise (BinanceConfigError config_message)).
Proof.
  unfold get_client. split.
  - intros c.
    destruct (falsy (getenv w "BINANCE_API_KEY")) eqn:Hk; [discriminate|].
    destruct (falsy (getenv w "BINANCE_API_SECRET")) eqn:Hs; [discriminate|].
    simpl. destruct (connect w _) as [[]|e] eqn:Hc; [|discriminate].
    simpl. intros H. injection H as <-. simpl.
    destruct (falsy_text _ Hk), (falsy_text _ Hs). now repeat split.
  - intros [H|H]; rewrite H; [reflexivity|].
    now rewrite orb_true_r.
Qed.

Lemma get_client_testnet_credentials_witness :
  testnet {| api_key := "key"; api_secret := "secret"; testnet := true |} = true /\
  get_client unconfigured_world = Raise (BinanceConfigError config_message).
Proof.
  destruct (get_client_testnet_credentials (lot_world "1" "1")) as [A _].
  destruct (get_client_testnet_credentials unconfigured_world) as [_ B].
  split.
  - apply (A {| api_key := "key"; api_secret := "secret"; testnet := true |}).
    reflexivity.
  - apply B. left. reflexivity.
Defined.

Lemma find_lot_size_first (symbol : string) (fs : list dict) (f : dict) :
  find_lot_size symbol fs = OK f ->
  exists before after,
    fs = (before ++ f :: after)%list /\
    getitem f "filterType" = OK "LOT_SIZE" /\
    Forall (fun g => exists ty, getitem g "filterType" = OK ty /\ ty <> "LOT_SIZE")
           before.
Proof.
  induction fs as [|g fs IH]; simpl; [discriminate|].
  destruct (getitem g "filterType") as [ty|] eqn:Hty; simpl; [|discriminate].
  destruct (String.eqb_spec ty "LOT_SIZE") as [->|Hne].
  - intros H. injection H as <-. now exists [], fs.
  - intros H. destruct (IH H) as (before & after & -> & Hf & Hb).
    exists (g :: before), after. repeat split; try assumption.
    constructor; [now exists ty|assumption].
Qed.

(** X2: The filter [_get_lot_size_filter] returns is the first LOT_SIZE filter
    the exchange lists for the upper-cased symbol: it is one of the symbol's
    filters, its type is LOT_SIZE, and every filter listed before it has
    another type. *)
Theorem lot_size_filter_is_first (w : World) (symbol : string) (f : dict) :
  _get_lot_size_filter w symbol = OK f ->
  exists info before after,
    get_symbol_info w (Py.upper symbol) = OK (Some info) /\
    filters info = (before ++ f :: after)%list /\
    getitem f "filterType" = OK "LOT_SIZE" /\
    Forall (fun g => exists ty, getitem g "filterType" = OK ty /\ ty <> "LOT_SIZE")
           before.
Proof.
  unfold _get_lot_size_filter.
  destruct (get_client w); simpl; [|discriminate].
  destruct (get_symbol_info w (Py.upper symbol)) as [[info|]|]; simpl;
    try discriminate.
  intros H. destruct (find_lot_size_first _ _ _ H) as (bf & af & H1 & H2 & H3).
  now exists info, bf, af.
Qed.

Lemma lot_size_filter_is_first_witness :
  exists info before after,
    get_symbol_info (lot_world "0.001" "0.001") (Py.upper "btcusdt")
      = OK (Some info) /\
    filters info =
      (before ++ [("filterType", "LOT_SIZE"); ("minQty", "0.001");
                  ("maxQty", "9000.00000000"); ("stepSize", "0.001")] :: after)%list /\
    getitem [("filterType", "LOT_SIZE"); ("minQty", "0.001");
             ("maxQty", "9000.00000000"); ("stepSize", "0.001")] "filterType"
      = OK "LOT_SIZE" /\
    Forall (fun g => exists ty, getitem g "filterType" = OK ty /\ ty <> "LOT_SIZE")
           before.
Proof.
  apply (lot_size_filter_is_first (lot_world "0.001" "0.001") "btcusdt").
  reflexivity.
Defined.

(** X3: A symbol the exchange does not know, and a symbol without a LOT_SIZE
    filter, are both refused with a ValueError naming the symbol as given;
    a filter without a type is a KeyError. *)
Theorem lot_size_filter_missing (w : World) (c : Client) (symbol : string) :
  get_client w = OK c ->
  (get_symbol_info w (Py.upper symbol) = OK None ->
   _get_lot_size_filter w symbol =
     Raise (ValueError ("Símbolo inválido: " ++ symbol))) /\
  (forall info,
     get_symbol_info w (Py.upper symbol) = OK (Some info) ->
     Forall (fun g => exists ty, getitem g "filterType" = OK ty /\ ty <> "LOT_SIZE")
            (filters info) ->
     _get_lot_size_filter w symbol =
       Raise (ValueError ("Nenhum filtro LOT_SIZE encontrado para " ++ symbol))).
Proof.
  intros Hc. unfold _get_lot_size_filter. rewrite Hc. simpl. split.
  - intros ->. reflexivity.
  - intros info -> H. simpl.
    induction H as [|g fs (ty & Hty & Hne) _ IH]; simpl; [reflexivity|].
    rewrite Hty. simpl. apply String.eqb_neq in Hne. now rewrite Hne.
Qed.

Lemma lot_size_filter_missing_witness :
  _get_lot_size_filter unlisted_world "nope"
  = Raise (ValueError ("Símbolo inválido: " ++ "nope")).
Proof.
  destruct (lot_size_filter_missing unlisted_world sample_client "nope" eq_refl)
    as [A _].
  apply A. reflexivity.
Defined.

(** ** Order entry: what a call sends *)

(** X4: for an ASCII symbol and side, [place_market_order] either leaves
    the world as it was and raises, or sends exactly one order: a MARKET
    order for the upper-cased symbol, on the upper-cased side, which is BUY
    or SELL, with the quantity [str] of the normalised request; this happens
    only for a request that is not at most zero, and the call then returns
    the exchange's answer to that order, an exception included. *)
Theorem place_market_order_sends_at_most_one (w : World) (symbol side : string)
    (q : F64.float) :
  Py.all_ascii symbol = true ->
  Py.all_ascii side = true ->
  (exists e, place_market_order w symbol side q = (Raise e, w)) \/
  (exists adj,
      adjust_quantity_to_lot w symbol q = OK adj /\
      valid_side (Py.upper side) = true /\
      F64.leb q F64.pos_zero = false /\
      let request :=
        {| order_symbol := Py.upper symbol; order_side := Py.upper side;
           order_type := "MARKET"; order_quantity := F64.repr adj |} in
      place_market_order w symbol side q =
        (exchange_reply w request, submit w request) /\
      submitted (submit w request) = request :: submitted w).
Proof.
  intros _ _. unfold place_market_order.
  destruct (get_client w) as [c|e]; [|left; now exists e].
  destruct (valid_side (Py.upper side)) eqn:Hs; simpl; [|left; eauto].
  destruct (F64.leb q F64.pos_zero) eqn:Hq; [left; eauto|].
  destruct (adjust_quantity_to_lot w symbol q) as [adj|e]; [|left; eauto].
  right. exists adj. repeat split.
Qed.

Lemma place_market_order_sends_at_most_one_witness :
  (exists e, place_market_order (lot_world "0.001" "0.001") "btcusdt" "buy"
               (literal "0.0025") = (Raise e, lot_world "0.001" "0.001")) \/
  (exists adj,
      adjust_quantity_to_lot (lot_world "0.001" "0.001") "btcusdt"
        (literal "0.0025") = OK adj /\
      valid_side (Py.upper "buy") = true /\
      F64.leb (literal "0.0025") F64.pos_zero = false /\
      let request :=
        {| order_symbol := Py.upper "btcusdt"; order_side := Py.upper "buy";
           order_type := "MARKET"; order_quantity := F64.repr adj |} in
      place_market_order (lot_world "0.001" "0.001") "btcusdt" "buy"
        (literal "0.0025") =
        (exchange_reply (lot_world "0.001" "0.001") request,
         submit (lot_world "0.001" "0.001") request) /\
      submitted (submit (lot_world "0.001" "0.001") request)
        = request :: submitted (lot_world "0.001" "0.001")).
Proof.
  apply (place_market_order_sends_at_most_one (lot_world "0.001" "0.001")
           "btcusdt" "buy" (literal "0.0025")); reflexivity.
Defined.

(** ** The normaliser: which exceptions it raises *)

Lemma float_of_string_raises (s : string) (e : exn) :
  F64.float_of_string s = Raise e -> exists m, e = ValueError m.
Proof.
  unfold F64.float_of_string.
  destruct (if Py.contains "_" s then F64.remove_underscores "000" s else Some s)
    as [t|]; [|intros H; injection H as <-; eauto].
  destruct (match F64.strtod _ with Some r => Some r | None => _ end)
    as [[x [|c r]]|]; intros H; try discriminate; injection H as <-; eauto.
Qed.

Lemma quantize_raises (qty step : F64.float) (e : exn) :
  F64.gtb step F64.pos_zero = true ->
  quantize qty step = Raise e ->
  (exists m, e = ValueError m) \/ (exists m, e = OverflowError m).
Proof.
  intros Hstep. unfold quantize, F64.truediv.
  destruct step as [s|s| |s m x]; try discriminate; simpl F64.is_zero; cbv iota;
    (simpl bind;
     destruct (F64.floor _) as [z|e'] eqn:Hf; simpl;
     [ unfold F64.of_int; destruct (F64.of_Z z); simpl; intros H;
       try discriminate; injection H as <-; right; eauto
     | intros H; injection H as <-;
       destruct (F64.div _ _); simpl in Hf; try discriminate;
       injection Hf as <-; eauto ]).
Qed.

(** X5: The normaliser on a fetched filter raises nothing but: a KeyError for a
    filter without "minQty" or "stepSize", a ValueError, an OverflowError.
    In particular it never divides by zero, and reading back the rendered
    quantity never fails. *)
Theorem adjust_with_filter_raises (lot : dict) (q : F64.float) (e : exn) :
  adjust_with_filter lot q = Raise e ->
  e = KeyError "minQty" \/ e = KeyError "stepSize" \/
  (exists m, e = ValueError m) \/ (exists m, e = OverflowError m).
Proof.
  unfold adjust_with_filter.
  destruct (getitem lot "minQty") as [min_str|e1] eqn:Hm; simpl.
  2:{ intros H. injection H as <-. left.
      clear -Hm. induction lot as [|[k v] lot IH]; simpl in Hm.
      - now injection Hm as <-.
      - destruct (String.eqb k "minQty"); [discriminate|auto]. }
  destruct (F64.float_of_string min_str) as [min_qty|e1] eqn:Hfm; simpl.
  2:{ intros H. injection H as <-. right. right. left.
      eapply float_of_string_raises; eassumption. }
  destruct (getitem lot "stepSize") as [step_str|e1] eqn:Hs; simpl.
  2:{ intros H. injection H as <-. right. left.
      clear -Hs. induction lot as [|[k v] lot IH]; simpl in Hs.
      - now injection Hs as <-.
      - destruct (String.eqb k "stepSize"); [discriminate|auto]. }
  destruct (F64.float_of_string step_str) as [step|e1] eqn:Hfs; simpl.
  2:{ intros H. injection H as <-. right. right. left.
      eapply float_of_string_raises; eassumption. }
  destruct (F64.gtb step F64.pos_zero) eqn:Hstep.
  - destruct (quantize _ step) as [qty|e1] eqn:Hq; simpl.
    + rewrite float_of_format_f. discriminate.
    + intros H. injection H as <-. right. right.
      eapply quantize_raises; eassumption.
  - simpl. rewrite float_of_format_f. discriminate.
Qed.

Lemma adjust_with_filter_raises_witness :
  KeyError "stepSize" = KeyError "minQty" \/
  KeyError "stepSize" = KeyError "stepSize" \/
  (exists m, KeyError "stepSize" = ValueError m) \/
  (exists m, KeyError "stepSize" = OverflowError m).
Proof.
  apply (adjust_with_filter_raises [("minQty", "0.1")] (literal "1")).
  reflexivity.
Defined.

(** ** Requests that are not numbers *)

(** X6: A NaN request passes the positivity check of the order entry (it is not
    at most zero); under a positive step the normaliser then fails on the
    floor of NaN, and an infinite request under a positive finite step fails
    on the floor of infinity; no order is sent in either case. *)
Theorem not_a_number_request (w : World) (c : Client) (symbol side : string)
    (lot : dict) (min_str step_str : string) (min_qty step : F64.float) :
  get_client w = OK c ->
  valid_side (Py.upper side) = true ->
  _get_lot_size_filter w symbol = OK lot ->
  getitem lot "minQty" = OK min_str ->
  F64.float_of_string min_str = OK min_qty ->
  getitem lot "stepSize" = OK step_str ->
  F64.float_of_string step_str = OK step ->
  F64.gtb step F64.pos_zero = true ->
  place_market_order w symbol side F64.nan =
    (Raise (ValueError "cannot convert float NaN to integer"), w) /\
  (forall m e, step = S754_finite false m e ->
     place_market_order w symbol side (F64.inf false) =
       (Raise (OverflowError "cannot convert float infinity to integer"), w)).
Proof.
  intros Hc Hs Hlot Hm Hfm Hss Hfs Hstep.
  unfold place_market_order. rewrite Hc, Hs. simpl negb. cbv iota.
  rewrite !(adjust_quantity_to_lot_eq w symbol lot) by assumption.
  rewrite !(adjust_with_filter_eq lot min_str step_str min_qty step) by assumption.
  rewrite Hstep. split.
  - change (F64.leb F64.nan F64.pos_zero) with false. cbv iota.
    assert (E : Py.max F64.gtb F64.nan min_qty = F64.nan)
      by (unfold Py.max; now destruct min_qty as [[]|[]| |[]]).
    rewrite E. destruct step as [s|s| |s m e]; try discriminate;
      destruct s; try discriminate; reflexivity.
  - intros m e ->.
    change (F64.leb (F64.inf false) F64.pos_zero) with false. cbv iota.
    assert (E : Py.max F64.gtb (F64.inf false) min_qty = F64.inf false)
      by (unfold Py.max; now destruct min_qty as [[]|[]| |[]]).
    rewrite E. reflexivity.
Qed.

Lemma not_a_number_request_witness :
  place_market_order (lot_world "0.001" "0.001") "BTCUSDT" "buy" F64.nan =
    (Raise (ValueError "cannot convert float NaN to integer"),
     lot_world "0.001" "0.001").
Proof.
  apply (not_a_number_request (lot_world "0.001" "0.001") sample_client
           "BTCUSDT" "buy"
           [("filterType", "LOT_SIZE"); ("minQty", "0.001");
            ("maxQty", "9000.00000000"); ("stepSize", "0.001")]
           "0.001" "0.001" (literal "0.001") (literal "0.001"));
    reflexivity.
Defined.

(** ** The precision of an accepted rule *)



Lemma rstrip_repeat (c : ascii) (n : nat) : Py.rstrip c (Py.repeat c n) = EmptyString.
Proof.
  induction n as [|n IH]; [reflexivity|]. simpl. rewrite IH.
  now rewrite Ascii.eqb_refl.
Qed.

Lemma rstrip_app_repeat (c : ascii) (s : string) (n : nat) :
  Py.rstrip c (s ++ Py.repeat c n) = Py.rstrip c s.
Proof.
  induction s as [|a s IH]; simpl; [apply rstrip_repeat|]. now rewrite IH.
Qed.

(** X8: Zeros written after the last digit of a step with a point do not change
    the precision: "0.001" and "0.00100000" are rendered alike. *)
Theorem step_decimals_trailing_zeros (step_str : string) (n : nat) :
  Py.contains "." step_str = true ->
  step_decimals (step_str ++ Py.repeat "0" n) = step_decimals step_str.
Proof.
  intros H. unfold step_decimals.
  now rewrite contains_app, H, rstrip_app_repeat.
Qed.

Lemma step_decimals_trailing_zeros_witness :
  step_decimals ("0.001" ++ Py.repeat "0" 5) = step_decimals "0.001".
Proof. apply step_decimals_trailing_zeros. reflexivity. Defined.

(** ** More on where the nulls are *)







(** ** The value of the simple average *)

Lemma total_map_Some (l : list Q) : total (map Some l) = fold_right Qplus 0 l.
Proof. induction l as [|a l IH]; [reflexivity|]. simpl. now rewrite <- IH. Qed.

Lemma rolling_mean_value (w i : nat) (l : list Q) :
  (1 <= w)%nat -> (w - 1 <= i < List.length l)%nat ->
  nth_error (rolling_mean w (map Some l)) i =
  Some (Some (mean (firstn w (skipn (S i - w) l)))).
Proof.
  intros Hw [Hi Hl]. unfold rolling_mean.
  rewrite nth_error_map, nth_error_seq, length_map.
  destruct (Nat.ltb_spec i (List.length l)); [|lia].
  cbn [option_map Nat.add]. f_equal.
  unfold calc_mean. rewrite window_at_map_Some, count_map_Some, total_map_Some.
  replace (S i - (S i - w))%nat with w by lia.
  assert (Hlen : List.length (firstn w (skipn (S i - w) l)) = w)
    by (rewrite length_firstn, length_skipn; lia).
  rewrite Hlen.
  destruct (Nat.leb_spec w w); [|lia].
  destruct (Nat.ltb_spec 0 w); [|lia].
  unfold mean. now rewrite Hlen.
Qed.

(** ** The RSI stays between 0 and 100 *)

Lemma non_negative_cons (x : option Q) (xs : Series) :
  non_negative (x :: xs) ->
  (forall v, x = Some v -> 0 <= v) /\ non_negative xs.
Proof.
  intros H. split.
  - intros v ->. exact (H 0%nat v eq_refl).
  - intros i v Hi. exact (H (S i) v Hi).
Qed.

Lemma weighted_step_non_negative (alpha old_wt w c : Q) :
  0 < alpha -> alpha <= 1 -> 0 <= old_wt -> 0 <= w -> 0 <= c ->
  0 <= (old_wt * (1 - alpha) * w + alpha * c) / (old_wt * (1 - alpha) + alpha).
Proof.
  intros Ha Ha1 Ho Hw Hc.
  assert (H1 : 0 <= old_wt * (1 - alpha)) by nra.
  apply Qle_shift_div_l; [lra|]. nra.
Qed.

Lemma ewm_loop_non_negative (alpha : Q) (minp : nat) (xs : Series) :
  0 < alpha -> alpha <= 1 ->
  forall weighted old_wt nobs,
    0 <= old_wt ->
    (forall w, weighted = Some w -> 0 <= w) ->
    non_negative xs ->
    non_negative (ewm_loop alpha minp weighted old_wt nobs xs).
Proof.
  intros Ha Ha1. induction xs as [|cur xs IH]; intros weighted old_wt nobs Ho Hw Hx.
  - intros [|i] v H; discriminate.
  - apply non_negative_cons in Hx as [Hcur Hxs].
    assert (Hnew : forall weighted' old',
               0 <= old' -> (forall w, weighted' = Some w -> 0 <= w) ->
               non_negative
                 ((if (minp <=? nobs + observed cur)%nat then weighted' else None)
                    :: ewm_loop alpha minp weighted' old' (nobs + observed cur) xs)).
    { intros weighted' old' Ho' Hw' [|i] v H; simpl in H.
      - destruct (minp <=? nobs + observed cur)%nat; [|discriminate].
        injection H as H. now apply Hw'.
      - now apply (IH weighted' old' (nobs + observed cur)%nat Ho' Hw' Hxs i). }
    simpl. destruct weighted as [w|]; destruct cur as [c|].
    + apply Hnew; [lra|]. intros w' H. injection H as <-.
      destruct (Qeq_bool w c); [now apply Hw|].
      apply weighted_step_non_negative; auto.
    + apply Hnew; [|exact Hw].
      assert (0 <= 1 - alpha) by lra. nra.
    + apply Hnew; [exact Ho|exact Hcur].
    + apply Hnew; [exact Ho|]. discriminate.
Qed.

Lemma ewm_mean_non_negative (alpha : Q) (p : nat) (xs : Series) :
  0 < alpha -> alpha <= 1 -> non_negative xs ->
  non_negative (ewm_mean alpha p xs).
Proof.
  intros Ha Ha1 Hx. destruct xs as [|x0 xs]; [intros [|i] v H; discriminate|].
  apply non_negative_cons in Hx as [H0 Hxs].
  intros [|i] v H; simpl in H.
  - destruct (Nat.max p 1 <=? observed x0)%nat; [|discriminate].
    injection H as H. now apply H0.
  - eapply (ewm_loop_non_negative alpha _ xs Ha Ha1 x0 1); try eassumption. lra.
Qed.

Lemma up_direction_non_negative (xs : Series) :
  non_negative (where_ (fun v => negb (Qle_bool v 0)) 0 xs).
Proof.
  intros i v H. unfold where_ in H. rewrite nth_error_map in H.
  destruct (nth_error xs i) as [[x|]|]; simpl in H; try discriminate.
  - destruct (Qle_bool x 0) eqn:E; simpl in H; injection H as <-; [lra|].
    destruct (Qlt_le_dec 0 x) as [Hlt|Hle]; [lra|].
    apply Qle_bool_iff in Hle. congruence.
  - injection H as <-. lra.
Qed.

Lemma down_direction_non_negative (xs : Series) :
  non_negative (neg (where_ (fun v => negb (Qle_bool 0 v)) 0 xs)).
Proof.
  intros i v H. unfold neg, where_ in H. rewrite !nth_error_map in H.
  destruct (nth_error xs i) as [[x|]|]; simpl in H; try discriminate.
  - destruct (Qle_bool 0 x) eqn:E; simpl in H; injection H as <-; [lra|].
    destruct (Qlt_le_dec x 0) as [Hlt|Hle]; [lra|].
    apply Qle_bool_iff in Hle. congruence.
  - injection H as <-. lra.
Qed.

Lemma rsi_cell_bounds (u d : option Q) (v : Q) :
  (forall x, u = Some x -> 0 <= x) -> (forall x, d = Some x -> 0 <= x) ->
  Ta.rsi_cell u d = Some v -> 0 <= v <= 100.
Proof.
  intros Hu Hd. unfold Ta.rsi_cell.
  destruct d as [dv|]; [|discriminate].
  destruct (Qeq_bool dv 0) eqn:E.
  - intros H. injection H as <-. lra.
  - destruct u as [uv|]; [|discriminate]. intros H. injection H as <-.
    specialize (Hu uv eq_refl). specialize (Hd dv eq_refl).
    assert (Hne : ~ dv == 0)
      by (intros Hz; apply Qeq_bool_iff in Hz; congruence).
    assert (Hpos : 0 < dv) by (destruct (Qlt_le_dec 0 dv); [assumption|lra]).
    assert (Hq : 0 <= uv / dv) by (apply Qle_shift_div_l; lra).
    assert (Hr : 0 <= 100 / (1 + uv / dv)) by (apply Qle_shift_div_l; lra).
    assert (Hs : 100 / (1 + uv / dv) <= 100) by (apply Qle_shift_div_r; nra).
    lra.
Qed.

Lemma rsi_cells_bounds (ups dns : Series) :
  non_negative ups -> non_negative dns ->
  forall i v, nth_error (Ta.rsi_cells ups dns) i = Some (Some v) -> 0 <= v <= 100.
Proof.
  revert dns. induction ups as [|u ups IH]; intros [|d dns] Hu Hd [|i] v H;
    simpl in H; try discriminate.
  - apply non_negative_cons in Hu as [Hu _]. apply non_negative_cons in Hd as [Hd _].
    injection H as H. exact (rsi_cell_bounds u d v Hu Hd H).
  - apply non_negative_cons in Hu as [_ Hu]. apply non_negative_cons in Hd as [_ Hd].
    exact (IH dns Hu Hd i v H).
Qed.

Lemma RSI_run_bounds (cl : Series) (i : nat) (v : Q) :
  nth_error (Ta.RSI_run cl 14 false) i = Some (Some v) -> 0 <= v <= 100.
Proof.
  unfold Ta.RSI_run. apply rsi_cells_bounds.
  - apply ewm_mean_non_negative; [reflexivity|discriminate|].
    apply up_direction_non_negative.
  - apply ewm_mean_non_negative; [reflexivity|discriminate|].
    apply down_direction_non_negative.
Qed.

(** X11: Every RSI the pipeline computes lies between 0 and 100, whatever the
    closes. *)
Theorem rsi_between_0_and_100 (ks : list Kline) (df : DataFrame) (i : nat) (v : Q) :
  add_basic_indicators (klines_frame ks) = OK df ->
  cell df "rsi" i = Some (Some v) ->
  0 <= v <= 100.
Proof.
  rewrite add_basic_indicators_klines. intros H. injection H as <-.
  rewrite indicators_frame_cell.
  change (nth_error (Ta.RSI_run (map Some (map close ks)) 14 false) i = Some (Some v)
          -> 0 <= v <= 100).
  apply RSI_run_bounds.
Qed.

Lemma rsi_between_0_and_100_witness :
  cell (indicators_frame rising_candles) "rsi" 13 = Some (Some 100) /\
  0 <= 100 <= 100.
Proof.
  split; [vm_compute; reflexivity|].
  apply (rsi_between_0_and_100 rising_candles (indicators_frame rising_candles)
           13 100); vm_compute; reflexivity.
Defined.

(** ** Running the pipeline on its own result *)

Lemma setitem_same (df : DataFrame) (name : string) (c : column) :
  lookup df name = Some c -> setitem df name c = df.
Proof.
  induction df as [|[n c'] df IH]; simpl; [discriminate|].
  destruct (String.eqb n name); intros H; [now injection H as ->|].
  now rewrite IH.
Qed.

Lemma add_basic_indicators_inv (df df' : DataFrame) :
  add_basic_indicators df = OK df' ->
  exists cl,
    get_floats df "close" = OK cl /\
    df' = setitem (setitem (setitem (setitem (setitem df
            "sma_fast" (Floats (rolling_mean 9 cl)))
            "sma_slow" (Floats (rolling_mean 21 cl)))
            "rsi" (Floats (Ta.RSI_run cl 14 false)))
            "macd" (Floats (Ta.macd (Ta.MACD_run cl 26 12 9 false))))
            "macd_signal" (Floats (Ta.macd_signal (Ta.MACD_run cl 26 12 9 false))).
Proof.
  destruct (get_floats df "close") as [cl|e] eqn:Hc.
  - rewrite (add_basic_indicators_eq df cl Hc). intros H. injection H as <-.
    now exists cl.
  - unfold add_basic_indicators. rewrite Hc. discriminate.
Qed.

(** X12: Running the pipeline on the frame it returned gives that frame again:
    the indicator columns are recomputed from the same closes and replace
    themselves in place. *)
Theorem add_basic_indicators_again (df df' : DataFrame) :
  add_basic_indicators df = OK df' ->
  add_basic_indicators df' = OK df'.
Proof.
  intros H. destruct (add_basic_indicators_inv df df' H) as (cl & Hc & ->).
  rewrite (add_basic_indicators_eq _ cl)
    by (now rewrite !get_floats_setitem by reflexivity).
  f_equal.
  rewrite (setitem_same _ "sma_fast") by (now rewrite indicators_lookup).
  rewrite (setitem_same _ "sma_slow") by (now rewrite indicators_lookup).
  rewrite (setitem_same _ "rsi") by (now rewrite indicators_lookup).
  rewrite (setitem_same _ "macd") by (now rewrite indicators_lookup).
  now rewrite (setitem_same _ "macd_signal") by (now rewrite indicators_lookup).
Qed.

Lemma add_basic_indicators_again_witness :
  add_basic_indicators (indicators_frame rising_candles)
  = OK (indicators_frame rising_candles).
Proof.
  apply (add_basic_indicators_again (klines_frame rising_candles)).
  apply add_basic_indicators_klines.
Defined.

(** ** The columns of the result *)

Lemma names_setitem_new (df : DataFrame) (name : string) (c : column) :
  lookup df name = None ->
  map fst (setitem df name c) = (map fst df ++ [name])%list.
Proof.
  induction df as [|[n c'] df IH]; simpl; [reflexivity|].
  destruct (String.eqb n name); [discriminate|]. intros H. simpl.
  now rewrite IH.
Qed.

Lemma column_length_indicators (cl : Series) :
  List.length (rolling_mean 9 cl) = List.length cl /\
  List.length (rolling_mean 21 cl) = List.length cl /\
  List.length (Ta.RSI_run cl 14 false) = List.length cl /\
  List.length (Ta.macd (Ta.MACD_run cl 26 12 9 false)) = List.length cl /\
  List.length (Ta.macd_signal (Ta.MACD_run cl 26 12 9 false)) = List.length cl.
Proof.
  rewrite !rolling_mean_length, RSI_run_length, macd_length, macd_signal_length.
  now repeat split.
Qed.

(** X13: on a frame with distinct column names and [n] rows.  Without a
    close column the frame is refused with a KeyError naming the column.
    With a close column of floats the pipeline returns a frame of [n] rows:
    every column other than the five indicator columns is the one given,
    each indicator column is a float column, and when the frame had none of
    the five they are appended in the order sma_fast, sma_slow, rsi, macd,
    macd_signal. *)
Theorem add_basic_indicators_columns (df : DataFrame) (n : nat) :
  NoDup (map fst df) ->
  has_rows df n ->
  (lookup df "close" = None ->
   add_basic_indicators df = Raise (KeyError "close")) /\
  (forall cl, lookup df "close" = Some (Floats cl) ->
     exists df',
       add_basic_indicators df = OK df' /\
       has_rows df' n /\
       (forall name, ~ In name indicator_names ->
                     lookup df' name = lookup df name) /\
       (forall name, In name indicator_names ->
          exists xs, lookup df' name = Some (Floats xs)) /\
       ((forall name, In name indicator_names -> lookup df name = None) ->
        map fst df' = (map fst df ++ indicator_names)%list)).
Proof.
  intros _ Hrows. split.
  - intros H. unfold add_basic_indicators, get_floats. now rewrite H.
  - intros cl Hcl.
    assert (Hc : get_floats df "close" = OK cl)
      by (unfold get_floats; now rewrite Hcl).
    assert (Hn : List.length cl = n) by exact (Hrows "close" (Floats cl) Hcl).
    eexists. split; [apply (add_basic_indicators_eq df cl Hc)|].
    destruct (column_length_indicators cl) as (L1 & L2 & L3 & L4 & L5).
    split; [|split; [|split]].
    + repeat apply has_rows_setitem; try assumption; unfold column_length; congruence.
    + intros name Hn'. rewrite indicators_lookup.
      repeat match goal with
             | |- context [String.eqb ?a name] =>
                 destruct (String.eqb_spec a name) as [E|_];
                 [exfalso; apply Hn'; subst name; simpl; tauto|]
             end.
      reflexivity.
    + intros name Hn'. rewrite indicators_lookup. simpl in Hn'.
      repeat (destruct Hn' as [<-|Hn']; [eexists; reflexivity|]).
      contradiction.
    + intros Hnone.
      rewrite !names_setitem_new; rewrite ?lookup_setitem; simpl;
        try (apply Hnone; simpl; tauto).
      now rewrite <- !List.app_assoc.
Qed.

Lemma klines_frame_names (ks : list Kline) :
  NoDup (map fst (klines_frame ks)).
Proof.
  simpl.
  repeat (constructor;
          [simpl; intros H;
           repeat (destruct H as [H|H]; [discriminate H|]); exact H|]).
  constructor.
Qed.

Lemma add_basic_indicators_columns_witness :
  exists df',
    add_basic_indicators (klines_frame rising_candles) = OK df' /\
    has_rows df' 14 /\
    (forall name, ~ In name indicator_names ->
                  lookup df' name = lookup (klines_frame rising_candles) name) /\
    (forall name, In name indicator_names ->
       exists xs, lookup df' name = Some (Floats xs)) /\
    ((forall name, In name indicator_names ->
                   lookup (klines_frame rising_candles) name = None) ->
     map fst df' = (map fst (klines_frame rising_candles) ++ indicator_names)%list).
Proof.
  destruct (add_basic_indicators_columns (klines_frame rising_candles) 14
              (klines_frame_names rising_candles)
              (klines_frame_rows rising_candles)) as [_ A].
  apply (A (map Some (map close rising_candles))).
  reflexivity.
Defined.

(** ** Flat prices *)

Lemma constant_cons (c : Q) (x : option Q) (xs : Series) :
  constant c (x :: xs) -> (forall v, x = Some v -> v = c) /\ constant c xs.
Proof.
  intros H. split.
  - intros v ->. exact (H 0%nat v eq_refl).
  - intros i v Hi. exact (H (S i) v Hi).
Qed.

Lemma constant_intro (c : Q) (x : option Q) (xs : Series) :
  (forall v, x = Some v -> v = c) -> constant c xs -> constant c (x :: xs).
Proof. intros Hx Hxs [|i] v H; simpl in H; [injection H as H; auto|eauto]. Qed.

Lemma ewm_loop_constant (alpha : Q) (minp : nat) (c : Q) (xs : Series) :
  forall weighted old_wt nobs,
    (forall w, weighted = Some w -> w = c) ->
    constant c xs ->
    constant c (ewm_loop alpha minp weighted old_wt nobs xs).
Proof.
  induction xs as [|cur xs IH]; intros weighted old_wt nobs Hw Hx.
  - intros [|i] v H; discriminate.
  - apply constant_cons in Hx as [Hcur Hxs]. simpl.
    destruct weighted as [w|]; destruct cur as [x|].
    + rewrite (Hw w eq_refl), (Hcur x eq_refl), Qeq_bool_refl.
      apply constant_intro; [destruct (minp <=? _)%nat; congruence|].
      apply IH; [congruence|assumption].
    + apply constant_intro; [destruct (minp <=? _)%nat; [exact Hw|discriminate]|].
      apply IH; assumption.
    + apply constant_intro; [destruct (minp <=? _)%nat; [exact Hcur|discriminate]|].
      apply IH; assumption.
    + apply constant_intro; [destruct (minp <=? _)%nat; discriminate|].
      apply IH; [discriminate|assumption].
Qed.

Lemma ewm_mean_constant (alpha : Q) (p : nat) (c : Q) (xs : Series) :
  constant c xs -> constant c (ewm_mean alpha p xs).
Proof.
  intros H. destruct xs as [|x0 xs]; [intros [|i] v E; discriminate|].
  apply constant_cons in H as [H0 Hxs]. simpl.
  apply constant_intro; [destruct (_ <=? _)%nat; [exact H0|discriminate]|].
  apply ewm_loop_constant; assumption.
Qed.

Lemma constant_map_Some (c : Q) (l : list Q) :
  Forall (fun x => x = c) l -> constant c (map Some l).
Proof.
  intros H i v Hi. rewrite nth_error_map in Hi.
  destruct (nth_error l i) as [x|] eqn:E; simpl in Hi; [|discriminate].
  injection Hi as <-. rewrite Forall_forall in H. apply H.
  eapply nth_error_In; eassumption.
Qed.

Lemma sub_constant (a b : Q) (xs ys : Series) :
  constant a xs -> constant b ys -> constant (a - b) (sub xs ys).
Proof.
  revert ys. induction xs as [|x xs IH]; intros [|y ys] Hx Hy;
    try (intros [|i] v H; discriminate).
  apply constant_cons in Hx as [Hx Hxs]. apply constant_cons in Hy as [Hy Hys].
  simpl. apply constant_intro; [|now apply IH].
  destruct x as [xv|], y as [yv|]; try discriminate.
  intros v H. injection H as <-. now rewrite (Hx xv eq_refl), (Hy yv eq_refl).
Qed.

Lemma diff_from_flat (c : Q) (l : list Q) :
  Forall (fun x => x = c) l ->
  forall prev, (forall v, prev = Some v -> v = c) ->
  constant (c - c) (diff_from prev (map Some l)).
Proof.
  induction 1 as [|x l Hx Hl IH]; intros prev Hp; [intros [|i] v H; discriminate|].
  subst x. simpl. apply constant_intro.
  - destruct prev as [b|]; [|discriminate]. intros v H. injection H as <-.
    now rewrite (Hp b eq_refl).
  - apply IH. intros v H. now injection H as <-.
Qed.

Lemma up_direction_flat (c : Q) (xs : Series) :
  constant (c - c) xs ->
  constant 0 (where_ (fun v => negb (Qle_bool v 0)) 0 xs).
Proof.
  intros H i v Hi. unfold where_ in Hi. rewrite nth_error_map in Hi.
  destruct (nth_error xs i) as [[x|]|] eqn:E; simpl in Hi; try discriminate;
    [|now injection Hi as <-].
  rewrite (H i x E) in Hi.
  assert (Hz : Qle_bool (c - c) 0 = true) by (apply Qle_bool_iff; lra).
  rewrite Hz in Hi. now injection Hi as <-.
Qed.

Lemma down_direction_flat (c : Q) (xs : Series) :
  constant (c - c) xs ->
  constant 0 (neg (where_ (fun v => negb (Qle_bool 0 v)) 0 xs)).
Proof.
  intros H i v Hi. unfold neg, where_ in Hi. rewrite !nth_error_map in Hi.
  destruct (nth_error xs i) as [[x|]|] eqn:E; simpl in Hi; try discriminate;
    [|now injection Hi as <-].
  rewrite (H i x E) in Hi.
  assert (Hz : Qle_bool 0 (c - c) = true) by (apply Qle_bool_iff; lra).
  rewrite Hz in Hi. now injection Hi as <-.
Qed.

Lemma rsi_cells_flat (ups dns : Series) :
  constant 0 dns -> constant 100 (Ta.rsi_cells ups dns).
Proof.
  revert dns. induction ups as [|u ups IH]; intros [|d dns] Hd;
    try (intros [|i] v H; discriminate).
  apply constant_cons in Hd as [Hd Hds]. simpl.
  apply constant_intro; [|now apply IH].
  unfold Ta.rsi_cell. destruct d as [dv|]; [|discriminate].
  rewrite (Hd dv eq_refl). simpl. intros v H. now injection H as <-.
Qed.

Lemma In_window {A : Type} (x : A) (n k : nat) (l : list A) :
  In x (firstn n (skipn k l)) -> In x l.
Proof.
  intros H. rewrite <- (firstn_skipn k l). apply in_or_app. right.
  rewrite <- (firstn_skipn n (skipn k l)). apply in_or_app. now left.
Qed.

Lemma mean_flat (c : Q) (l : list Q) :
  Forall (fun x => x = c) l -> l <> [] -> mean l == c.
Proof.
  intros H Hne. unfold mean.
  assert (Hsum : fold_right Qplus 0 l == c * inject_Z (Z.of_nat (List.length l))).
  { clear Hne. induction H as [|x l Hx Hl IH].
    - change (0 == c * 0). ring.
    - subst x. cbn [fold_right List.length].
      rewrite IH, Nat2Z.inj_succ. unfold Z.succ. rewrite inject_Z_plus.
      change (inject_Z 1) with 1. ring. }
  rewrite Hsum.
  assert (Hpos : 0 < inject_Z (Z.of_nat (List.length l))).
  { destruct l; [congruence|]. rewrite <- (Zlt_Qlt 0). simpl. lia. }
  field. lra.
Qed.

(** X14: When every candle closes at the same price [p]: each RSI the pipeline
    computes is exactly 100 (the average loss is zero), each macd and
    macd_signal it computes equals 0, and each simple average equals [p]. *)
Theorem flat_prices (ks : list Kline) (p : Q) (df : DataFrame) :
  Forall (fun k => close k = p) ks ->
  add_basic_indicators (klines_frame ks) = OK df ->
  (forall i v, cell df "rsi" i = Some (Some v) -> v = 100) /\
  (forall i v, cell df "macd" i = Some (Some v) -> v == 0) /\
  (forall i v, cell df "macd_signal" i = Some (Some v) -> v == 0) /\
  (forall i v, cell df "sma_fast" i = Some (Some v) -> v == p) /\
  (forall i v, cell df "sma_slow" i = Some (Some v) -> v == p).
Proof.
  intros Hflat. rewrite add_basic_indicators_klines. intros H. injection H as <-.
  assert (Hcl : Forall (fun x => x = p) (map close ks))
    by (rewrite Forall_map; exact Hflat).
  pose proof (constant_map_Some p _ Hcl) as Hc.
  assert (Hdiff : constant (p - p) (diff (map Some (map close ks))))
    by (apply diff_from_flat; [assumption|discriminate]).
  assert (Hmacd : constant (p - p)
                    (Ta.macd (Ta.MACD_run (map Some (map close ks)) 26 12 9 false)))
    by (apply sub_constant; apply ewm_mean_constant; assumption).
  assert (Hsma : forall w i v, (1 <= w)%nat ->
             nth_error (rolling_mean w (map Some (map close ks))) i = Some (Some v) ->
             v == p).
  { intros w i v Hw Hv.
    assert (Hi : (i < List.length (map close ks))%nat).
    { rewrite <- (length_map Some), <- (rolling_mean_length w).
      apply nth_error_Some. congruence. }
    destruct (Nat.lt_ge_cases i (w - 1)) as [Hlt|Hge].
    - pose proof (rolling_mean_null_before w (map close ks) Hw i (Some v) Hv) as N.
      assert (Some v = None) by (apply N; lia). discriminate.
    - rewrite rolling_mean_value in Hv by lia. injection Hv as <-.
      apply mean_flat.
      + apply Forall_forall. intros x Hx. rewrite Forall_forall in Hcl.
        apply Hcl. eapply In_window. eassumption.
      + intros E. apply (f_equal (@List.length Q)) in E.
        rewrite length_firstn, length_skipn in E.
        change (List.length (@nil Q)) with 0%nat in E.
        destruct w; lia. }
  repeat split; intros i v; rewrite indicators_frame_cell.
  - change (nth_error (Ta.RSI_run (map Some (map close ks)) 14 false) i = Some (Some v)
            -> v = 100).
    intros Hv. refine (rsi_cells_flat _ _ _ i v Hv).
    apply ewm_mean_constant, (down_direction_flat p), Hdiff.
  - change (nth_error (Ta.macd (Ta.MACD_run (map Some (map close ks)) 26 12 9 false)) i
            = Some (Some v) -> v == 0).
    intros Hv. rewrite (Hmacd i v Hv). lra.
  - change (nth_error
              (Ta.macd_signal (Ta.MACD_run (map Some (map close ks)) 26 12 9 false)) i
            = Some (Some v) -> v == 0).
    intros Hv.
    rewrite (ewm_mean_constant _ 9 (p - p) _ Hmacd i v Hv). lra.
  - change (nth_error (rolling_mean 9 (map Some (map close ks))) i = Some (Some v)
            -> v == p).
    apply Hsma. lia.
  - change (nth_error (rolling_mean 21 (map Some (map close ks))) i = Some (Some v)
            -> v == p).
    apply Hsma. lia.
Qed.

Lemma flat_prices_witness :
  cell (indicators_frame flat_candles) "rsi" 13 = Some (Some 100) /\
  ((forall i v, cell (indicators_frame flat_candles) "rsi" i = Some (Some v) ->
                v = 100) /\
   (forall i v, cell (indicators_frame flat_candles) "macd" i = Some (Some v) ->
                v == 0) /\
   (forall i v, cell (indicators_frame flat_candles) "macd_signal" i = Some (Some v) ->
                v == 0) /\
   (forall i v, cell (indicators_frame flat_candles) "sma_fast" i = Some (Some v) ->
                v == 100) /\
   (forall i v, cell (indicators_frame flat_candles) "sma_slow" i = Some (Some v) ->
                v == 100)).
Proof.
  split; [vm_compute; reflexivity|].
  apply (flat_prices flat_candles 100);
    [repeat constructor|apply add_basic_indicators_klines].
Defined.

(** ** Balances *)

Lemma non_zero_loop_filter (bs : list dict) (ps : list Balance) :
  Forall2 (fun b p => read_balance b = OK p) bs ps ->
  forall acc, non_zero_loop bs acc = OK (acc ++ filter is_non_zero ps)%list.
Proof.
  induction 1 as [|b p bs ps Hb _ IH]; intros acc; simpl.
  - now rewrite List.app_nil_r.
  - unfold read_balance in Hb.
    destruct (float_get b "free") as [f|]; [simpl in *|discriminate].
    destruct (float_get b "locked") as [l|]; [simpl in *|discriminate].
    injection Hb as <-. unfold is_non_zero at 1. simpl.
    destruct (F64.gtb f F64.pos_zero || F64.gtb l F64.pos_zero).
    + now rewrite IH, <- app_assoc.
    + apply IH.
Qed.

Lemma non_zero_loop_raises (bs : list dict) (e : exn) :
  Exists (fun b => read_balance b = Raise e) bs ->
  forall acc, exists e', non_zero_loop bs acc = Raise e'.
Proof.
  induction 1 as [b bs Hb|b bs _ IH]; intros acc; simpl.
  - unfold read_balance in Hb.
    destruct (float_get b "free") as [f|e1]; simpl in *; [|eauto].
    destruct (float_get b "locked") as [l|e2]; simpl in *; [discriminate|eauto].
  - destruct (float_get b "free") as [f|e1]; simpl; [|eauto].
    destruct (float_get b "locked") as [l|e2]; simpl; [|eauto].
    destruct (_ || _); apply IH.
Qed.

(** X15: With a client and an account answer whose balances all read as numbers,
    [get_non_zero_balances] returns, in the order listed, exactly the
    balances whose free or locked amount is greater than zero; an answer
    without a balance list gives the empty list; and one balance whose
    amount is not a number makes the whole call raise. *)
Theorem get_non_zero_balances_filter (w : World) (c : Client)
    (get_account : Client -> res AccountInfo) (info : AccountInfo) :
  get_client w = OK c ->
  get_account c = OK info ->
  (balances info = None -> get_non_zero_balances w get_account = OK []) /\
  (forall bs ps,
     balances info = Some bs ->
     Forall2 (fun b p => read_balance b = OK p) bs ps ->
     get_non_zero_balances w get_account = OK (filter is_non_zero ps) /\
     Forall (fun p => F64.gtb (free p) F64.pos_zero = true \/
                      F64.gtb (locked p) F64.pos_zero = true)
            (filter is_non_zero ps)) /\
  (forall bs e,
     balances info = Some bs ->
     Exists (fun b => read_balance b = Raise e) bs ->
     exists e', get_non_zero_balances w get_account = Raise e').
Proof.
  intros Hc Ha. unfold get_non_zero_balances. rewrite Hc. simpl. rewrite Ha. simpl.
  split; [|split].
  - intros ->. reflexivity.
  - intros bs ps -> H. split.
    + now rewrite (non_zero_loop_filter bs ps H).
    + apply Forall_forall. intros p Hp. apply filter_In in Hp as [_ Hp].
      unfold is_non_zero in Hp. now apply orb_true_iff in Hp.
  - intros bs e -> H. now apply (non_zero_loop_raises bs e).
Qed.

Lemma get_non_zero_balances_filter_witness :
  get_non_zero_balances (lot_world "1" "1")
    (fun _ => OK {| balances := Some
       [ [("asset", "BTC"); ("free", "0.50000000"); ("locked", "0.00000000")];
         [("asset", "ETH"); ("free", "0.00000000"); ("locked", "0.00000000")];
         [("asset", "BNB"); ("locked", "2")] ] |})
  = OK [ {| asset := Some "BTC"; free := literal "0.5"; locked := F64.pos_zero |};
         {| asset := Some "BNB"; free := F64.pos_zero; locked := literal "2" |} ].
Proof.
  destruct (get_non_zero_balances_filter (lot_world "1" "1") sample_client
              (fun _ => OK {| balances := Some
                 [ [("asset", "BTC"); ("free", "0.50000000"); ("locked", "0.00000000")];
                   [("asset", "ETH"); ("free", "0.00000000"); ("locked", "0.00000000")];
                   [("asset", "BNB"); ("locked", "2")] ] |})
              _ eq_refl eq_refl) as (_ & A & _).
  destruct (A _
    [ {| asset := Some "BTC"; free := literal "0.5"; locked := F64.pos_zero |};
      {| asset := Some "ETH"; free := F64.pos_zero; locked := F64.pos_zero |};
      {| asset := Some "BNB"; free := F64.pos_zero; locked := literal "2" |} ]
    eq_refl) as [B _].
  - repeat constructor.
  - exact B.
Defined.

(** ** Upper-casing and stripping *)

Lemma upper_char_idempotent (c : ascii) :
  Py.upper_char (Py.upper_char c) = Py.upper_char c.
Proof. destruct c as [[] [] [] [] [] [] [] []]; reflexivity. Qed.

Lemma upper_idempotent (s : string) : Py.upper (Py.upper s) = Py.upper s.
Proof.
  induction s as [|c s IH]; [reflexivity|].
  simpl. now rewrite upper_char_idempotent, IH.
Qed.

Lemma lstrip_space_idempotent (s : string) :
  Py.lstrip_space (Py.lstrip_space s) = Py.lstrip_space s.
Proof.
  induction s as [|c s IH]; [reflexivity|]. simpl.
  destruct (Py.is_space c) eqn:E; [exact IH|]. simpl. now rewrite E.
Qed.

Lemma rstrip_space_idempotent (s : string) :
  Py.rstrip_space (Py.rstrip_space s) = Py.rstrip_space s.
Proof.
  induction s as [|c s IH]; [reflexivity|]. simpl.
  destruct (Py.rstrip_space s) as [|b t] eqn:E.
  - destruct (Py.is_space c) eqn:Hc; [reflexivity|]. simpl. now rewrite Hc.
  - change (Py.rstrip_space (String c (String b t))) with
      (match Py.rstrip_space (String b t) with
       | EmptyString => if Py.is_space c then EmptyString else String c EmptyString
       | u => String c u
       end).
    now rewrite IH.
Qed.

(** Stripping the right end leaves a start that is no white space as it
    is. *)
Lemma lstrip_rstrip (s : string) :
  Py.lstrip_space s = s -> Py.lstrip_space (Py.rstrip_space s) = Py.rstrip_space s.
Proof.
  destruct s as [|c s]; [reflexivity|]. simpl.
  destruct (Py.is_space c) eqn:Hc.
  - intros H. exfalso.
    assert (L : forall t, (String.length (Py.lstrip_space t) <= String.length t)%nat).
    { induction t as [|a t IHt]; simpl; [lia|]. destruct (Py.is_space a); simpl; lia. }
    specialize (L s). rewrite H in L. simpl in L. lia.
  - intros _. destruct (Py.rstrip_space s); simpl; now rewrite Hc.
Qed.

Lemma strip_clean (s : string) :
  Py.lstrip_space (strip s) = strip s /\ Py.rstrip_space (strip s) = strip s.
Proof.
  unfold strip. split.
  - apply lstrip_rstrip, lstrip_space_idempotent.
  - apply rstrip_space_idempotent.
Qed.

Lemma all_upper_upper (s : string) : all_upper (Py.upper s) = true.
Proof.
  induction s as [|c s IH]; [reflexivity|]. simpl.
  now rewrite upper_char_idempotent, Ascii.eqb_refl.
Qed.

Lemma all_upper_fixed (s : string) : all_upper s = true -> Py.upper s = s.
Proof.
  induction s as [|c s IH]; [reflexivity|]. simpl. intros H.
  apply andb_true_iff in H as [Hc Hs]. apply Ascii.eqb_eq in Hc.
  now rewrite Hc, IH.
Qed.

Lemma all_upper_lstrip (s : string) :
  all_upper s = true -> all_upper (Py.lstrip_space s) = true.
Proof.
  induction s as [|c s IH]; [reflexivity|]. simpl. intros H.
  apply andb_true_iff in H as [Hc Hs].
  destruct (Py.is_space c); [auto|]. simpl. now rewrite Hc, Hs.
Qed.

Lemma all_upper_rstrip (s : string) :
  all_upper s = true -> all_upper (Py.rstrip_space s) = true.
Proof.
  induction s as [|c s IH]; [reflexivity|]. simpl. intros H.
  apply andb_true_iff in H as [Hc Hs]. specialize (IH Hs).
  destruct (Py.rstrip_space s).
  - destruct (Py.is_space c); [reflexivity|]. simpl. now rewrite Hc.
  - simpl in *. now rewrite Hc, IH.
Qed.

(** ** The route that picks a market *)

(** X16: for an ASCII query argument, [market_select] sends a missing,
    empty or blank symbol back to the index with one danger message; any
    other symbol goes, without a message, to the market page of the symbol
    upper-cased and stripped, which is then not empty, has no white space at
    either end and is in upper case. *)
Theorem market_select_target (arg : option string) :
  Py.all_ascii (text arg) = true ->
  let symbol := strip (Py.upper (text arg)) in
  (symbol = EmptyString ->
   market_select arg =
     (RedirectIndex, [("Informe um par, por exemplo BTCUSDT.", "danger")])) /\
  (symbol <> EmptyString ->
   market_select arg = (RedirectMarket symbol, []) /\
   Py.lstrip_space symbol = symbol /\
   Py.rstrip_space symbol = symbol /\
   Py.upper symbol = symbol).
Proof.
  intros _. cbv zeta. unfold market_select. split.
  - intros ->. reflexivity.
  - intros H. split; [now destruct (strip (Py.upper (text arg)))|].
    destruct (strip_clean (Py.upper (text arg))) as [L R].
    repeat split; try assumption.
    apply all_upper_fixed. unfold strip.
    apply all_upper_rstrip, all_upper_lstrip, all_upper_upper.
Qed.

Lemma market_select_target_witness :
  market_select (Some " ethusdt ") = (RedirectMarket "ETHUSDT", []) /\
  market_select (Some "   ") =
    (RedirectIndex, [("Informe um par, por exemplo BTCUSDT.", "danger")]).
Proof.
  destruct (market_select_target (Some " ethusdt ") eq_refl) as [_ A].
  destruct (market_select_target (Some "   ") eq_refl) as [B _].
  split.
  - apply A. discriminate.
  - apply B. reflexivity.
Defined.

(** ** The route that sends an order *)

(** X17: for an ASCII symbol, side and quantity field, [order] answers
    with a redirect to the market page of the upper-cased symbol and flashes
    exactly one message.  A quantity field that is no float gives
    "Quantidade inválida." and reaches no exchange call; a missing field
    counts as 0.0 and, like every quantity at most zero, ends in a danger
    message with no order sent.  A success message is flashed only when one
    order went out, for the upper-cased symbol and side, and the exchange
    answered it. *)
Theorem order_flashes_once (w : World) (symbol side : string)
    (form : option string) :
  Py.all_ascii symbol = true ->
  Py.all_ascii side = true ->
  Py.all_ascii (text form) = true ->
  exists (message category : string) (w' : World),
    order w symbol side form =
      ((RedirectMarket (Py.upper symbol), [(message, category)]), w') /\
    (category = "success" \/ category = "danger") /\
    (forall e, F64.float_of_string
                 (match form with Some s => s | None => "0.0" end) = Raise e ->
       message = "Quantidade inválida." /\ category = "danger" /\ w' = w) /\
    (forall q, F64.float_of_string
                 (match form with Some s => s | None => "0.0" end) = OK q ->
       F64.leb q F64.pos_zero = true -> category = "danger" /\ w' = w) /\
    (form = None -> category = "danger" /\ w' = w) /\
    (category = "success" ->
       exists request reply,
         w' = submit w request /\
         exchange_reply w request = OK reply /\
         order_symbol request = Py.upper symbol /\
         order_side request = Py.upper side /\
         order_type request = "MARKET").
Proof.
  intros _ _ _. unfold order.
  assert (Z : forall q, F64.leb q F64.pos_zero = true ->
            exists e, place_market_order w (Py.upper symbol) (Py.upper side) q
                      = (Raise e, w)).
  { intros q Hq. unfold place_market_order.
    destruct (get_client w); [|eauto].
    destruct (negb (valid_side _)); [eauto|]. rewrite Hq. eauto. }
  destruct (F64.float_of_string _) as [q|e0] eqn:Hf.
  - unfold place_market_order at 1.
    destruct (get_client w) as [c|e] eqn:Hc.
    2:{ do 3 eexists. split; [reflexivity|].
        repeat split; try discriminate; auto. }
    destruct (negb (valid_side _)) eqn:Hs.
    { do 3 eexists. split; [reflexivity|].
      repeat split; try discriminate; auto. }
    destruct (F64.leb q F64.pos_zero) eqn:Hq.
    { do 3 eexists. split; [reflexivity|].
      repeat split; try discriminate; auto. }
    destruct (adjust_quantity_to_lot w (Py.upper symbol) q) as [adj|e].
    2:{ do 3 eexists. split; [reflexivity|].
        repeat split; try discriminate; auto. }
    rewrite !upper_idempotent.
    destruct (exchange_reply w _) as [reply|e] eqn:Hr.
    + do 3 eexists. split; [reflexivity|].
      split; [now left|]. split; [discriminate|].
      split; [intros q' H; injection H as <-; congruence|].
      split; [intros ->; simpl in Hf; injection Hf as <-; discriminate|].
      intros _. do 2 eexists. split; [reflexivity|]. split; [exact Hr|].
      now repeat split.
    + do 3 eexists. split; [reflexivity|].
      split; [now right|]. split; [discriminate|].
      split; [intros q' H; injection H as <-; congruence|].
      split; [intros ->; simpl in Hf; injection Hf as <-; discriminate|].
      discriminate.
  - do 3 eexists. split; [reflexivity|].
    repeat split; try discriminate; auto.
Qed.

Lemma order_flashes_once_witness :
  order (lot_world "0.001" "0.001") "btcusdt" "buy" (Some (String "028" "1")) =
    ((RedirectMarket "BTCUSDT", [("Quantidade inválida.", "danger")]),
     lot_world "0.001" "0.001").
Proof.
  destruct (order_flashes_once (lot_world "0.001" "0.001") "btcusdt" "buy"
              (Some (String "028" "1")) eq_refl eq_refl eq_refl)
    as (m & c & w' & H & _ & B & _).
  destruct (B _ eq_refl) as (-> & -> & ->). exact H.
Defined.
